(** * DARC contest calendar grabber (ck2.py): a shallow embedding

    The script is one pipeline: scrape the table rows of the calendar page,
    de-duplicate, filter, print an aligned table and optionally export an
    iCalendar file.  This development embeds the pure part of every stage
    and proves the stated properties of each about the embedding.

    Conventions.
    - A Python [str] is a [string] whose characters are the code points
      0..255 (Latin-1).  Every string operation the script uses ([replace],
      [split], [partition], [strip], [count], [lower], [in], [len],
      concatenation) maps Latin-1 text to Latin-1 text, so the embedding is
      closed on that domain.  The no-break space U+00A0 is the character
      of code 160.
    - The third-party libraries are not part of the script.  BeautifulSoup
      is represented by its answers (the cells of a row, the text of the
      first [<strong>] and [<a>] of a cell); dateutil's [parser.parse] is a
      parameter of the scraper, an exception being [None]; [uuid.uuid4],
      [datetime.utcnow] and the outcomes of [os.makedirs] and of the file
      write are parameters of the exporter.
    - [date.today().year] is the parameter [current_year]. *)

From Stdlib Require Import ZArith Ascii Sorted.
From stdpp Require Import base option list strings countable gmap.

Local Open Scope Z_scope.

(* set_solver clears hypotheses by name; silence its notes. *)
#[local] Set Warnings "-clear-no-such-hyp".

(** ** Python string operations *)

Module Py.

(** Characters that [str.strip()] removes, among the code points below
    256: TAB..CR, FS..US, space, NEL (133) and the no-break space (160). *)
Definition is_space (c : ascii) : bool :=
  let n := nat_of_ascii c in
  ((9 <=? n) && (n <=? 13) || (28 <=? n) && (n <=? 32)
   || (n =? 133) || (n =? 160))%nat.

Definition nbsp : ascii := "160"%char.

(** [c.lower()] for one Latin-1 character: A..Z and the accented capitals
    192..222 (the multiplication sign 215 apart) move up by 32. *)
Definition lower_char (c : ascii) : ascii :=
  let n := nat_of_ascii c in
  if ((65 <=? n) && (n <=? 90)
      || (192 <=? n) && (n <=? 222) && negb (n =? 215))%nat
  then ascii_of_nat (n + 32) else c.

Fixpoint map_chars (f : ascii -> ascii) (s : string) : string :=
  match s with
  | EmptyString => EmptyString
  | String a r => String (f a) (map_chars f r)
  end.

(** [s.lower()] *)
Definition lower (s : string) : string := map_chars lower_char s.

(** [s.replace(old, new)] for one-character [old] and [new]. *)
Definition replace_char (old new : ascii) (s : string) : string :=
  map_chars (fun a => if Ascii.eqb a old then new else a) s.

(** [s.replace(c, '')] for a one-character [c]. *)
Fixpoint remove_char (c : ascii) (s : string) : string :=
  match s with
  | EmptyString => EmptyString
  | String a r =>
      if Ascii.eqb a c then remove_char c r else String a (remove_char c r)
  end.

(** [s.count(c)] for a one-character [c]. *)
Fixpoint count (c : ascii) (s : string) : Z :=
  match s with
  | EmptyString => 0
  | String a r => (if Ascii.eqb a c then 1 else 0) + count c r
  end.

(** [s.split(c, 1)]: the text before the first [c] and, when there is
    one, the text after it.  The Python list has two items exactly when
    the second component is [Some]. *)
Fixpoint split1 (c : ascii) (s : string) : string * option string :=
  match s with
  | EmptyString => (EmptyString, None)
  | String a r =>
      if Ascii.eqb a c then (EmptyString, Some r)
      else let '(h, t) := split1 c r in (String a h, t)
  end.

(** [s.partition(c)]: head, separator, tail; the separator and the tail
    are empty when [c] does not occur. *)
Definition partition (c : ascii) (s : string) : string * string * string :=
  match split1 c s with
  | (h, Some t) => (h, String c EmptyString, t)
  | (h, None) => (h, EmptyString, EmptyString)
  end.

(** [s.split(c)]: all the fields between occurrences of [c]. *)
Fixpoint split (c : ascii) (s : string) : list string :=
  match s with
  | EmptyString => [EmptyString]
  | String a r =>
      if Ascii.eqb a c then EmptyString :: split c r
      else match split c r with
           | h :: t => String a h :: t
           | [] => [String a EmptyString]
           end
  end.

(** [s.split(c)[-1]] *)
Definition last_field (c : ascii) (s : string) : string :=
  List.last (split c s) EmptyString.

Fixpoint lstrip (s : string) : string :=
  match s with
  | EmptyString => EmptyString
  | String a r => if is_space a then lstrip r else s
  end.

Fixpoint rstrip (s : string) : string :=
  match s with
  | EmptyString => EmptyString
  | String a r =>
      match rstrip r with
      | EmptyString => if is_space a then EmptyString else String a EmptyString
      | r' => String a r'
      end
  end.

(** [s.strip()] *)
Definition strip (s : string) : string := rstrip (lstrip s).

(** Truth value of a string: non-empty. *)
Definition truthy (s : string) : bool :=
  match s with EmptyString => false | String _ _ => true end.

Fixpoint startswith (p s : string) : bool :=
  match p, s with
  | EmptyString, _ => true
  | String a p', String b s' => Ascii.eqb a b && startswith p' s'
  | String _ _, EmptyString => false
  end.

(** [p in s] for strings: [p] occurs in [s] as a contiguous run. *)
Fixpoint contains (p s : string) : bool :=
  startswith p s
  || match s with
     | EmptyString => false
     | String _ s' => contains p s'
     end.

(** [s.ljust(w)], what the format field [{:<w}] does to a string: pad
    with spaces on the right up to [w] characters, never cut. *)
Definition ljust (w : nat) (s : string) : string :=
  s +:+ String.concat "" (replicate (w - String.length s)%nat " ").

(** [sep.join(l)] *)
Definition join (sep : string) (l : list string) : string :=
  String.concat sep l.

End Py.

(** ** Dates, times and events *)

(** [datetime.date], [datetime.time] (naive) and [datetime.datetime]
    (naive), compared field by field as Python does. *)
Record date := mkdate { year : Z; month : Z; day : Z }.
Record time := mktime { hour : Z; minute : Z; second : Z; microsecond : Z }.
Record datetime := mkdatetime { dt_date : date; dt_time : time }.

(** [datetime.combine(d, t)] *)
Definition combine (d : date) (t : time) : datetime := mkdatetime d t.

Definition is_leap (y : Z) : bool :=
  (y mod 4 =? 0) && (negb (y mod 100 =? 0) || (y mod 400 =? 0)).

Definition days_in_month (y m : Z) : Z :=
  if m =? 2 then (if is_leap y then 29 else 28)
  else if (m =? 4) || (m =? 6) || (m =? 9) || (m =? 11) then 30
  else 31.

(** The check of the [date] constructor. *)
Definition valid_date (y m d : Z) : bool :=
  (1 <=? y) && (y <=? 9999) && (1 <=? m) && (m <=? 12)
  && (1 <=? d) && (d <=? days_in_month y m).

(** [d.replace(year=y)]: a new date, or [ValueError] ([None]) when the day
    does not exist in year [y]. *)
Definition replace_year (d : date) (y : Z) : option date :=
  if valid_date y (month d) (day d) then Some (mkdate y (month d) (day d))
  else None.

#[global] Instance date_eq_dec : EqDecision date.
Proof. solve_decision. Defined.
#[global] Instance time_eq_dec : EqDecision time.
Proof. solve_decision. Defined.
#[global] Instance datetime_eq_dec : EqDecision datetime.
Proof. solve_decision. Defined.

#[global] Instance datetime_countable : Countable datetime.
Proof.
  refine (inj_countable'
    (fun x => (year (dt_date x), month (dt_date x), day (dt_date x),
               hour (dt_time x), minute (dt_time x), second (dt_time x),
               microsecond (dt_time x)))
    (fun '(y, m, d, hh, mm, ss, us) =>
       mkdatetime (mkdate y m d) (mktime hh mm ss us)) _).
  by intros [[] []].
Defined.

(** The dictionary the scraper builds for one contest. *)
Record event := mkevent {
  title : string;
  start_dt : datetime;
  end_dt : option datetime;
  mode : string;
  note : string
}.

#[global] Instance event_eq_dec : EqDecision event.
Proof. solve_decision. Defined.

(** ** The page, as BeautifulSoup presents it *)

(** One [<td>]: [strong] is [td.find("strong").get_text(strip=True)] when
    the cell has a [<strong>], [link] the same for its first [<a>], and
    [text] is [td.get_text(strip=True)]. *)
Record cell := mkcell {
  strong : option string;
  link : option string;
  text : string
}.

(** One [<tr>]: [row.find_all("td")]. *)
Definition row := list cell.

(** [(current_start_date, current_end_date)] *)
Definition tracker : Type := option date * option date.

(** ** scrape_all_contests *)

Section Scraper.

(** [parser.parse(s, dayfirst=True).date()] and [parser.parse(s).time()];
    [None] stands for any exception raised. *)
Variable parse_date : string -> option date.
Variable parse_time : string -> option time.
Variable current_year : Z.

(** Lines 64-66 and 77-79: strip the segment, cut at the first dot and
    keep what follows it (the whole segment when there is no dot). *)
Definition date_part (segment : string) : string :=
  match Py.split1 "." (Py.strip segment) with
  | (_, Some r) => r
  | (h, None) => h
  end.

(** Lines 68-69 and 81-82: append a dot and the last dot-separated field
    of the second segment. *)
Definition borrow_year (dp second : string) : string :=
  dp +:+ "." +:+ Py.last_field "." (Py.strip second).

(** The string handed to the parser for the start date (lines 62-69). *)
Definition start_fragment (txt : string) : string :=
  match Py.split1 "-" txt with
  | (first, Some second) =>
      let dp := date_part first in
      if Py.count "." dp <? 2 then borrow_year dp second else dp
  | (first, None) => date_part first
  end.

(** The string handed to the parser for the end date, when the text has
    a [-] (lines 76-82). *)
Definition end_fragment (txt : string) : option string :=
  match Py.split1 "-" txt with
  | (_, Some second) =>
      let dp := date_part second in
      Some (if Py.count "." dp <? 2 then borrow_year dp second else dp)
  | (_, None) => None
  end.

(** The body of both [try] blocks: parse, then force the year; either
    step may raise. *)
Definition parse_in_year (s : string) : option date :=
  match parse_date s with
  | Some d => replace_year d current_year
  | None => None
  end.

(** A header row (lines 61-89): the new tracked dates. *)
Definition header_dates (strong_text : string) : tracker :=
  let txt := Py.replace_char Py.nbsp " " strong_text in
  let current_start_date := parse_in_year (start_fragment txt) in
  let current_end_date :=
    match end_fragment txt with
    | Some f =>
        match parse_in_year f with
        | Some d2 => Some d2
        | None => current_start_date
        end
    | None => current_start_date
    end in
  (current_start_date, current_end_date).

Definition cell_text (tds : row) (i : nat) : string :=
  match tds !! i with Some c => text c | None => "" end.

(** Lines 94-95: the two time strings of a contest row. *)
Definition time_strings (tds : row) : string * string :=
  let time_txt :=
    match tds !! 1%nat with
    | Some c => Py.replace_char Py.nbsp " " (text c)
    | None => ""
    end in
  let '(a, _, b) := Py.partition "-" time_txt in
  (Py.strip a, Py.strip b).

(** Lines 98-109: [start_dt] and [end_dt] after the [try] block.  An
    exception leaves both as they were when it was raised. *)
Definition try_times (sd : date) (ed : option date)
    (start_str end_str : string) : option datetime * option datetime :=
  let first :=   (* [None]: the first parse raised *)
    if Py.truthy start_str then
      match parse_time start_str with
      | Some t1 => Some (Some (combine sd t1))
      | None => None
      end
    else Some None in
  match first with
  | None => (None, None)
  | Some start_dt =>
      if Py.truthy end_str then
        match parse_time end_str with
        | Some t2 =>
            let dt_end_date := match ed with Some d => d | None => sd end in
            (start_dt, Some (combine dt_end_date t2))
        | None => (start_dt, None)
        end
      else (start_dt, None)
  end.

(** Lines 93-117: the events a contest row appends (none or one). *)
Definition contest_events (sd : date) (ed : option date)
    (link_text : string) (tds : row) : list event :=
  let '(start_str, end_str) := time_strings tds in
  match try_times sd ed start_str end_str with
  | (Some s, e) =>
      [mkevent link_text s e (cell_text tds 2) (cell_text tds 3)]
  | (None, _) => []
  end.

(** A row is a header row when it has cells and the first one has a
    [<strong>]. *)
Definition is_header (r : row) : bool :=
  match r with
  | td0 :: _ => match strong td0 with Some _ => true | None => false end
  | [] => false
  end.

(** One turn of the loop (lines 55-117): the tracked dates after the row
    and the events it appends. *)
Definition row_step (st : tracker) (r : row) : tracker * list event :=
  match r with
  | [] => (st, [])
  | td0 :: _ =>
      match strong td0 with
      | Some s => (header_dates s, [])
      | None =>
          match link td0, fst st with
          | Some l, Some sd => (st, contest_events sd (snd st) l r)
          | _, _ => (st, [])
          end
      end
  end.

(** The loop over the rows from a given state: final state and the
    events appended, in order. *)
Fixpoint scrape_rows (st : tracker) (rows : list row)
    : tracker * list event :=
  match rows with
  | [] => (st, [])
  | r :: rest =>
      let '(st1, evs) := row_step st r in
      let '(st2, evs') := scrape_rows st1 rest in
      (st2, evs ++ evs')
  end.

Definition scrape_all_contests (rows : list row) : list event :=
  snd (scrape_rows (None, None) rows).

End Scraper.

(** ** main: the de-duplication loop (lines 243-250) *)

Definition dedup_key (e : event) : string * datetime := (title e, start_dt e).

(** One turn of the loop on [(seen, unique)]. *)
Definition dedup_step (st : gset (string * datetime) * list event)
    (e : event) : gset (string * datetime) * list event :=
  if decide (dedup_key e ∈ st.1) then st
  else ({[dedup_key e]} ∪ st.1, st.2 ++ [e]).

Definition deduplicate (events : list event) : list event :=
  (fold_left dedup_step events (∅, [])).2.

(** ** filter_events *)

(** Truth value of an optional list argument: given and non-empty. *)
Definition given {A} (o : option (list A)) : bool :=
  match o with Some (_ :: _) => true | _ => false end.

(** [m.lower().replace(' ', '')] *)
Definition normalize (s : string) : string := Py.remove_char " " (Py.lower s).

Definition in_months (m : Z) (months : list Z) : bool :=
  bool_decide (m ∈ months).

(** Line 127: the event lies outside the current year. *)
Definition out_of_year (current_year : Z) (e : event) : bool :=
  negb (year (dt_date (start_dt e)) =? current_year)
  && match end_dt e with
     | None => true
     | Some d => negb (year (dt_date d) =? current_year)
     end.

(** Lines 130-132: neither the start month nor the end month is asked for.
    [em] is tested for truth, so an absent end and month 0 count alike. *)
Definition out_of_months (months : list Z) (e : event) : bool :=
  let sm := month (dt_date (start_dt e)) in
  negb (in_months sm months)
  && match end_dt e with
     | Some d =>
         let em := month (dt_date d) in
         if em =? 0 then true else negb (in_months em months)
     | None => true
     end.

(** Line 136: [any(pat in mval or mval in pat for pat in pats)]. *)
Definition mode_matches (pats : list string) (e : event) : bool :=
  let mval := normalize (mode e) in
  existsb (fun pat => Py.contains pat mval || Py.contains mval pat) pats.

(** The body of the loop: [true] when the event is appended to [out]. *)
Definition keeps (current_year : Z) (months : option (list Z))
    (pats : option (list string)) (e : event) : bool :=
  if out_of_year current_year e then false
  else if given months && out_of_months (default [] months) e then false
  else if given pats && negb (mode_matches (default [] pats) e) then false
  else true.

Definition filter_events (current_year : Z) (events : list event)
    (months : option (list Z)) (modes : option (list string)) : list event :=
  let pats :=
    if given modes then Some (map normalize (default [] modes)) else None in
  List.filter (keeps current_year months pats) events.

(** ** export_to_ics *)

Inductive ical_value :=
  | VText (s : string)
  | VDateTime (d : datetime).

(** A component's properties, in the order they were added. *)
Definition properties := list (string * ical_value).

Record calendar := mkcalendar {
  cal_props : properties;
  cal_events : list properties
}.

Definition upper_char (c : ascii) : ascii :=
  let n := nat_of_ascii c in
  if ((97 <=? n) && (n <=? 122))%nat then ascii_of_nat (n - 32) else c.

(** [component.add(name, value)]: icalendar keeps properties under their
    upper-case name, which is the name it writes.  No name is added twice
    to one component here, so a property has one value. *)
Definition add (name : string) (v : ical_value) (ps : properties)
    : properties :=
  ps ++ [(Py.map_chars upper_char name, v)].

Definition add_if (b : bool) (name : string) (v : ical_value)
    (ps : properties) : properties :=
  if b then add name v ps else ps.

Definition newline : string := String "010"%char EmptyString.

Section Exporter.

(** [str(uuid.uuid4())] at its n-th call, [datetime.utcnow()], the
    exception text of a failed [os.makedirs] ([None]: the directory is
    there or was made) and the exception text of a failed write ([None]:
    the write succeeded). *)
Variable uuid4 : nat -> string.
Variable now : datetime.
Variable makedirs_error : option string.
Variable write_error : option string.

(** Lines 157-169: the entry of one event. *)
Definition vevent (purge : bool) (n : nat) (e : event) : properties :=
  let ev := add "uid" (VText (uuid4 n +:+ "@darc.de")) [] in
  let ev := add "dtstamp" (VDateTime now) ev in
  let ev := add "dtstart" (VDateTime (start_dt e)) ev in
  let ev := match end_dt e with
            | Some d => add "dtend" (VDateTime d) ev
            | None => ev
            end in
  let ev := add "summary" (VText (title e)) ev in
  let desc := "Mode: " +:+ mode e in
  let desc := if Py.truthy (note e)
              then desc +:+ newline +:+ "Notiz: " +:+ note e else desc in
  let ev := add "description" (VText desc) ev in
  add_if purge "status" (VText "CANCELLED") ev.

(** Lines 148-170: the calendar that is serialised. *)
Definition build_calendar (events : list event) (calname : option string)
    (purge : bool) : calendar :=
  let cal := add "prodid" (VText "-//DARC CT Contest Calendar//darc.de//") [] in
  let cal := add "version" (VText "2.0") cal in
  let cal := match calname with
             | Some n => add_if (Py.truthy n) "X-WR-CALNAME" (VText n) cal
             | None => cal
             end in
  let cal := add_if purge "METHOD" (VText "CANCEL") cal in
  mkcalendar cal (imap (vevent purge) events).

(** Lines 148-177, what [export_to_ics] does once the directory step of
    lines 145-147 has passed: the calendar built and the line printed. *)
Definition export_to_ics (events : list event) (filename : string)
    (calname : option string) (purge : bool) : calendar * string :=
  let cal := build_calendar events calname purge in
  match write_error with
  | None =>
      let mode := if purge then " (PURGE: METHOD=CANCEL, STATUS=CANCELLED)"
                  else "" in
      (cal, "ICS-Datei '" +:+ filename +:+ "' erfolgreich erstellt"
            +:+ mode +:+ ".")
  | Some e => (cal, "Fehler beim Schreiben der ICS-Datei: " +:+ e)
  end.


End Exporter.

(** The value of a property of a component, by its written name. *)
Definition property (name : string) (ps : properties) : option ical_value :=
  snd <$> List.find (fun p => bool_decide (p.1 = name)) ps.

(** ** format_and_print_events *)

Definition digit (n : Z) : string :=
  String (ascii_of_nat (48 + Z.to_nat (n mod 10))) EmptyString.

(** [%d], [%m], [%H], [%M]: two digits. *)
Definition pad2 (n : Z) : string := digit (n / 10) +:+ digit n.

(** [str(n)] for an integer. *)
Fixpoint decimal (fuel : nat) (n : Z) : string :=
  match fuel with
  | O => ""
  | S f => if n <? 10 then digit n else decimal f (n / 10) +:+ digit n
  end.

Definition str_int (n : Z) : string :=
  if n <? 0 then "-" +:+ decimal (S (Z.to_nat (- n))) (- n)
  else decimal (S (Z.to_nat n)) n.

(** [%Y] as the C library of Linux writes it: the year in decimal, with
    no padding (a year below 1000 has fewer than four digits there). *)
Definition year_text (n : Z) : string := str_int n.

(** [strftime('%d.%m.%Y')] and [strftime('%H:%M')] *)
Definition fmt_date (d : datetime) : string :=
  pad2 (day (dt_date d)) +:+ "." +:+ pad2 (month (dt_date d)) +:+ "."
  +:+ year_text (year (dt_date d)).
Definition fmt_time (d : datetime) : string :=
  pad2 (hour (dt_time d)) +:+ ":" +:+ pad2 (minute (dt_time d)).

Definition headers : list string :=
  ["Contest"; "Startdatum"; "Startzeit"; "Enddatum"; "Endzeit"; "Mode";
   "Notiz"].

(** Lines 195-207: the cells of one event. *)
Definition table_row (e : event) : list string :=
  [title e; fmt_date (start_dt e); fmt_time (start_dt e);
   match end_dt e with Some d => fmt_date d | None => "" end;
   match end_dt e with Some d => fmt_time d | None => "" end;
   mode e; note e].

(** Lines 210-213: each width is the largest length in its column. *)
Definition widen (widths : list nat) (r : list string) : list nat :=
  imap (fun i w => match r !! i with
                   | Some col => Nat.max w (String.length col)
                   | None => w
                   end) widths.

Definition column_widths (rows : list (list string)) : list nat :=
  fold_left widen rows (map String.length headers).

(** [fmt.format] on the cells of a line: every cell left-justified to its column's width,
    two spaces between columns. *)
Definition format_line (widths : list nat) (cells : list string) : string :=
  Py.join "  " (zip_with Py.ljust widths cells).

(** The placeholder of line 223; its seventh letter is a-umlaut, code 228. *)
Definition no_entries : string :=
  "keine Eintr" +:+ String "228"%char "ge".

(** The lines printed, in order. *)
Definition format_and_print_events (events : list event) : list string :=
  let rows := map table_row events in
  let widths := column_widths rows in
  let rule :=
    String.concat ""
      (replicate (sum_list widths + 2 * (length widths - 1))%nat "-") in
  [format_line widths headers; rule]
  ++ match rows with
     | [] => [no_entries]
     | _ => map (format_line widths) rows
     end.

(** ** main *)

(** The order of naive datetimes: year, month, day, hour, minute, second
    and microsecond compared in that order. *)
Definition datetime_fields (d : datetime) : list Z :=
  [year (dt_date d); month (dt_date d); day (dt_date d);
   hour (dt_time d); minute (dt_time d); second (dt_time d);
   microsecond (dt_time d)].

Fixpoint lex_compare (a b : list Z) : comparison :=
  match a, b with
  | [], [] => Eq
  | [], _ :: _ => Lt
  | _ :: _, [] => Gt
  | x :: a', y :: b' =>
      match x ?= y with
      | Eq => lex_compare a' b'
      | c => c
      end
  end.

(** [a <= b] on datetimes. *)
Definition datetime_le (a b : datetime) : bool :=
  match lex_compare (datetime_fields a) (datetime_fields b) with
  | Gt => false
  | _ => true
  end.

(** [filtered.sort(key=lambda e: e['start_dt'])] (line 254).  Python's sort
    is stable, and a stable ascending sort has one possible result; it is
    computed here by insertion, an event going in front of the first
    event that does not start before it. *)
Fixpoint insert_by_start (e : event) (l : list event) : list event :=
  match l with
  | [] => [e]
  | x :: r =>
      if datetime_le (start_dt e) (start_dt x) then e :: l
      else x :: insert_by_start e r
  end.

Definition sort_by_start (l : list event) : list event :=
  foldr insert_by_start [] l.

(** What argparse hands to [main]: [-m] and [-d] collect a list or stay
    [None], [-o] is a path or [None], [-p] is a flag. *)
Record arguments := mkarguments {
  arg_month : option (list Z);
  arg_mode : option (list string);
  arg_ics : option string;
  arg_purge : bool
}.


Section Main.

(** The parsers and the exporter's environment, as above.  The scraper
    and the filter each ask for today's year; the two answers are two
    parameters. *)
Variable parse_date : string -> option date.
Variable parse_time : string -> option time.
Variable year_at_scrape : Z.
Variable year_at_filter : Z.
Variable uuid4 : nat -> string.
Variable now : datetime.
Variable makedirs_error : option string.
Variable write_error : option string.

(** Lines 241-254: scrape, de-duplicate, filter, sort. *)
Definition main_events (rows : list row) (args : arguments) : list event :=
  let events := scrape_all_contests parse_date parse_time year_at_scrape rows in
  let unique := deduplicate events in
  let filtered :=
    filter_events year_at_filter unique (arg_month args) (arg_mode args) in
  sort_by_start filtered.






End Main.

(** ** Specification vocabulary *)

(** [p] occurs in [s] as a contiguous run of characters. *)
Definition occurs_in (p s : string) : Prop :=
  exists pre post, s = pre +:+ p +:+ post.

(** A header segment written as a dot-free prefix (a weekday abbreviation,
    say), a dot, and a date fragment that does not end in white space. *)
Definition segment (prefix fragment : string) : string :=
  prefix +:+ "." +:+ fragment.

Definition dotted (prefix fragment : string) : Prop :=
  Py.count "." prefix = 0 /\ Py.rstrip fragment = fragment.

(** A tracked pair the scraper can reach in year [y]: every date in it is
    a real day of year [y], and the end is set whenever the start is. *)
Definition in_year (y : Z) (d : date) : Prop :=
  year d = y /\ valid_date y (month d) (day d) = true.

Definition tracker_ok (y : Z) (st : tracker) : Prop :=
  match st with
  | (Some s, Some e) => in_year y s /\ in_year y e
  | (Some _, None) => False
  | (None, Some e) => in_year y e
  | (None, None) => True
  end.

(** An event whose start, and end when it has one, are real days of
    year [y]. *)
Definition event_in_year (y : Z) (e : event) : Prop :=
  in_year y (dt_date (start_dt e))
  /\ forall d, end_dt e = Some d -> in_year y (dt_date d).

(** Two answers of a date parser that differ at most in the year. *)
Definition same_day (a b : option date) : Prop :=
  match a, b with
  | Some x, Some y => month x = month y /\ day x = day y
  | None, None => True
  | _, _ => False
  end.

(** The width of the table printed for a list of events: the seven
    column widths and two spaces between neighbours. *)
Definition table_width (events : list event) : nat :=
  (sum_list (column_widths (map table_row events)) + 2 * 6)%nat.

(** A contest row: cells, no [<strong>] in the first, a link in it. *)
Definition is_contest (r : row) : bool :=
  match r with
  | td0 :: _ =>
      match strong td0, link td0 with
      | None, Some _ => true
      | _, _ => false
      end
  | [] => false
  end.

(** Ascending by start. *)
Definition starts_before (a b : event) : Prop :=
  datetime_le (start_dt a) (start_dt b) = true.

(** The positive form of the three tests of [filter_events]. *)
Definition year_ok (y : Z) (e : event) : Prop :=
  year (dt_date (start_dt e)) = y
  \/ exists d, end_dt e = Some d /\ year (dt_date d) = y.

Definition month_ok (months : list Z) (e : event) : Prop :=
  month (dt_date (start_dt e)) ∈ months
  \/ exists d, end_dt e = Some d /\ month (dt_date d) <> 0
               /\ month (dt_date d) ∈ months.

Definition mode_ok (modes : list string) (e : event) : Prop :=
  exists m, m ∈ modes
    /\ (occurs_in (normalize m) (normalize (mode e))
        \/ occurs_in (normalize (mode e)) (normalize m)).


(** ** A sample parser

    The examples need some parser to run the scraper on.  This one
    follows dateutil on the few shapes the examples use: it reads [D.M.Y]
    day first; it reads [D.] and [D..] as day D of today's month; it
    finds no date in a year-less [D.M.] with its final dot, in the empty
    string or in a lone dot; it reads [H:M] with an optional final [Z];
    it ignores surrounding white space.  Every other string it rejects,
    and the examples use none. *)

Module Sample.

Definition digit_value (c : ascii) : option Z :=
  let n := nat_of_ascii c in
  if ((48 <=? n) && (n <=? 57))%nat then Some (Z.of_nat (n - 48)) else None.

Fixpoint number_from (acc : Z) (s : string) : option Z :=
  match s with
  | EmptyString => Some acc
  | String c r =>
      match digit_value c with
      | Some d => number_from (10 * acc + d) r
      | None => None
      end
  end.

Definition number (s : string) : option Z :=
  if Py.truthy s then number_from 0 s else None.

Definition checked (y m d : Z) : option date :=
  if valid_date y m d then Some (mkdate y m d) else None.

Definition day_of_this_month (today : date) (d : string) : option date :=
  match number d with
  | Some d => checked (year today) (month today) d
  | None => None
  end.

Definition parse_date (today : date) (s : string) : option date :=
  match Py.split "." (Py.strip s) with
  | [d; m; y] =>
      match Py.truthy m, Py.truthy y with
      | true, true =>
          match number d, number m, number y with
          | Some d, Some m, Some y => checked y m d
          | _, _, _ => None
          end
      | false, false => day_of_this_month today d
      | _, _ => None
      end
  | [d; EmptyString] => day_of_this_month today d
  | _ => None
  end.

Definition drop_z (s : string) : string :=
  match Py.split "Z" s with
  | [h; EmptyString] => h
  | _ => s
  end.

Definition parse_time (s : string) : option time :=
  match Py.split ":" (drop_z (Py.strip s)) with
  | [h; m] =>
      match number h, number m with
      | Some h, Some m =>
          if (h <? 24) && (m <? 60) then Some (mktime h m 0 0) else None
      | _, _ => None
      end
  | _ => None
  end.

Definition today : date := mkdate 2025 11 3.

End Sample.

(** ** Example data *)

Module Examples.

Definition parse_date := Sample.parse_date Sample.today.
Definition parse_time := Sample.parse_time.

Definition header_row (txt : string) : row := [mkcell (Some txt) None txt].

Definition contest_row (name time_cell mode_cell : string) : row :=
  [mkcell None (Some name) name; mkcell None None time_cell;
   mkcell None None mode_cell].

Definition jan6 : date := mkdate 2025 1 6.
Definition jan7 : date := mkdate 2025 1 7.

Definition test_contest : event :=
  mkevent "Test Contest" (combine jan6 (mktime 15 0 0 0))
          (Some (combine jan7 (mktime 18 0 0 0))) "CW" "".

Definition cw_event : event :=
  mkevent "Test Contest" (combine jan6 (mktime 15 0 0 0)) None "CW" "".

Definition ssb_event : event :=
  mkevent "Other Contest" (combine jan7 (mktime 9 0 0 0)) None "SSB" "".

(** The same contest at the same start, listed a second time. *)
Definition cw_event_again : event :=
  mkevent "Test Contest" (combine jan6 (mktime 15 0 0 0))
          (Some (combine jan7 (mktime 18 0 0 0))) "CW" "repeated".

(** A parser that answers as the sample one, in another year. *)
Definition parse_date_1999 (s : string) : option date :=
  match parse_date s with
  | Some d => Some (mkdate 1999 (month d) (day d))
  | None => None
  end.



Definition blank_mode_event : event :=
  mkevent "Test Contest" (combine jan6 (mktime 15 0 0 0)) None "  " "".

End Examples.

(** * Facts about the string operations *)

Lemma append_cons a s t : String a s +:+ t = String a (s +:+ t).
Proof. reflexivity. Qed.

Lemma append_empty_l t : "" +:+ t = t.
Proof. reflexivity. Qed.

Lemma count_nonneg c s : 0 <= Py.count c s.
Proof. induction s as [|a s IH]; simpl; [lia|]. destruct (Ascii.eqb a c); lia. Qed.

Lemma count_cons_zero c a s :
  Py.count c (String a s) = 0 -> Ascii.eqb a c = false /\ Py.count c s = 0.
Proof.
  simpl. pose proof (count_nonneg c s). destruct (Ascii.eqb a c); [lia|].
  split; [done | lia].
Qed.

(** Splitting at the first [c]: a head without [c] is returned whole. *)
Lemma split1_found c p r :
  Py.count c p = 0 -> Py.split1 c (p +:+ String c r) = (p, Some r).
Proof.
  induction p as [|a p IH]; intros Hc.
  - rewrite append_empty_l. simpl. by rewrite Ascii.eqb_refl.
  - apply count_cons_zero in Hc as [Ha Hp].
    rewrite append_cons. simpl. rewrite Ha, (IH Hp). done.
Qed.

Lemma split1_absent c s : Py.count c s = 0 -> Py.split1 c s = (s, None).
Proof.
  induction s as [|a s IH]; intros Hc; [done|].
  apply count_cons_zero in Hc as [Ha Hs]. simpl. by rewrite Ha, (IH Hs).
Qed.

Lemma lstrip_count c s : Py.count c s = 0 -> Py.count c (Py.lstrip s) = 0.
Proof.
  induction s as [|a s IH]; intros Hc; [done|].
  simpl. destruct (Py.is_space a); [|done].
  apply count_cons_zero in Hc as [_ Hs]. auto.
Qed.

Lemma lstrip_append p a f :
  Py.is_space a = false ->
  Py.lstrip (p +:+ String a f) = Py.lstrip p +:+ String a f.
Proof.
  intros Ha. induction p as [|b p IH].
  - rewrite !append_empty_l. simpl. by rewrite Ha.
  - rewrite append_cons. simpl. destruct (Py.is_space b); [done|].
    by rewrite append_cons.
Qed.

Lemma rstrip_cons_keep a s :
  Py.is_space a = false -> Py.rstrip (String a s) = String a (Py.rstrip s).
Proof. intros Ha. simpl. destruct (Py.rstrip s); by rewrite ?Ha. Qed.

Lemma rstrip_append p s :
  Py.rstrip s <> "" -> Py.rstrip (p +:+ s) = p +:+ Py.rstrip s.
Proof.
  intros Hs. induction p as [|b p IH]; [done|].
  rewrite !append_cons. simpl. rewrite IH.
  destruct (p +:+ Py.rstrip s) eqn:E; [|done].
  destruct p; [|done]. rewrite append_empty_l in E. done.
Qed.

(** Stripping a segment touches the prefix only. *)
Lemma strip_segment p f :
  Py.rstrip f = f -> Py.strip (segment p f) = segment (Py.lstrip p) f.
Proof.
  intros Hf. unfold Py.strip, segment.
  change ("." +:+ f) with (String "." f).
  rewrite lstrip_append by done.
  rewrite rstrip_append; rewrite rstrip_cons_keep by done; [|done].
  by rewrite Hf.
Qed.

(** What is kept of a dotted segment: its fragment. *)
Lemma date_part_segment p f : dotted p f -> date_part (segment p f) = f.
Proof.
  intros [Hp Hf]. unfold date_part. rewrite strip_segment by done.
  unfold segment. change ("." +:+ f) with (String "." f).
  rewrite split1_found by (by apply lstrip_count). done.
Qed.

Lemma startswith_spec p s :
  Py.startswith p s = true <-> exists post, s = p +:+ post.
Proof.
  revert s. induction p as [|a p IH]; intros s; simpl.
  - split; [intros _; by exists s | done].
  - destruct s as [|b s].
    + split; [done | intros [post H]; by rewrite append_cons in H].
    + rewrite andb_true_iff, Ascii.eqb_eq, IH. split.
      * intros [-> [post ->]]. by exists post.
      * intros [post H]. rewrite append_cons in H. injection H as -> ->. eauto.
Qed.

(** [Py.contains] decides [occurs_in]. *)
Lemma contains_spec p s : Py.contains p s = true <-> occurs_in p s.
Proof.
  unfold occurs_in. induction s as [|b s IH].
  - simpl. rewrite orb_false_r, startswith_spec. split.
    + intros [post H]. exists "", post. by rewrite append_empty_l.
    + intros [pre [post H]]. destruct pre; [by exists post|].
      by rewrite append_cons in H.
  - simpl. rewrite orb_true_iff, startswith_spec, IH. split.
    + intros [[post H] | [pre [post H]]].
      * exists "", post. by rewrite append_empty_l.
      * exists (String b pre), post. by rewrite append_cons, H.
    + intros [pre [post H]]. destruct pre as [|c pre].
      * left. exists post. by rewrite append_empty_l in H.
      * right. rewrite append_cons in H. injection H as -> ->. eauto.
Qed.

Lemma contains_empty s : Py.contains "" s = true.
Proof. by destruct s. Qed.

(** * The scraper *)

Section ScraperFacts.

Variable parse_date : string -> option date.
Variable parse_time : string -> option time.
Variable current_year : Z.

Abbreviation step := (row_step parse_date parse_time current_year).
Abbreviation run := (scrape_rows parse_date parse_time current_year).
Abbreviation dates := (header_dates parse_date current_year).

Lemma header_row_step st td0 tds s :
  strong td0 = Some s -> step st (td0 :: tds) = (dates s, []).
Proof. intros H. simpl. by rewrite H. Qed.

Lemma plain_row_step st r :
  is_header r = false -> (step st r).1 = st.
Proof.
  destruct r as [|td0 tds]; [done|]. simpl.
  destruct (strong td0); [done|]. intros _.
  destruct (link td0), st as [[sd|] ed]; done.
Qed.

Lemma detached_row_step ed r :
  is_header r = false -> step (None, ed) r = ((None, ed), []).
Proof.
  destruct r as [|td0 tds]; [done|]. simpl.
  destruct (strong td0); [done|]. intros _. by destruct (link td0).
Qed.

(** Rows that are not headers, met while no start date is tracked, pass
    without a trace. *)
Lemma detached_rows_run ed rows rest :
  Forall (fun r => is_header r = false) rows ->
  run (None, ed) (rows ++ rest) = run (None, ed) rest.
Proof.
  induction 1 as [|r rows Hr _ IH]; [done|].
  simpl. rewrite (detached_row_step _ _ Hr). rewrite IH.
  by destruct (run (None, ed) rest).
Qed.

Lemma start_fragment_single p f :
  Py.count "-" (segment p f) = 0 -> dotted p f ->
  start_fragment (segment p f) = f /\ end_fragment (segment p f) = None.
Proof.
  intros Hm Hd. unfold start_fragment, end_fragment.
  rewrite (split1_absent _ _ Hm). by rewrite date_part_segment.
Qed.

Lemma fragments_range p1 f1 p2 f2 :
  Py.count "-" (segment p1 f1) = 0 -> dotted p1 f1 -> dotted p2 f2 ->
  2 <= Py.count "." f1 -> 2 <= Py.count "." f2 ->
  start_fragment (segment p1 f1 +:+ "-" +:+ segment p2 f2) = f1
  /\ end_fragment (segment p1 f1 +:+ "-" +:+ segment p2 f2) = Some f2.
Proof.
  intros Hm Hd1 Hd2 Hc1 Hc2. unfold start_fragment, end_fragment.
  change ("-" +:+ segment p2 f2) with (String "-" (segment p2 f2)).
  rewrite (split1_found _ _ _ Hm), !date_part_segment by done.
  by rewrite !(proj2 (Z.ltb_ge _ _)) by done.
Qed.

Lemma parse_in_year_valid f d :
  parse_date f = Some d ->
  valid_date current_year (month d) (day d) = true ->
  parse_in_year parse_date current_year f
  = Some (mkdate current_year (month d) (day d)).
Proof. intros Hp Hv. unfold parse_in_year, replace_year. by rewrite Hp, Hv. Qed.

End ScraperFacts.

(** C8.  A row that is not a header row (a contest row with a link, a row
    without a link, a row without cells) leaves the tracked pair
    [(current_start_date, current_end_date)] as it was; a header row is the
    only kind of row that replaces it, by the dates read from its text. *)
Theorem only_header_rows_move_the_tracker :
  forall parse_date parse_time current_year (st : tracker) (r : row),
    (row_step parse_date parse_time current_year st r).1
    = match r with
      | td0 :: _ =>
          match strong td0 with
          | Some s => header_dates parse_date current_year s
          | None => st
          end
      | [] => st
      end.
Proof.
  intros pd pt cy st [|td0 tds]; [done|].
  destruct (strong td0) as [s|] eqn:Hs.
  - by rewrite (header_row_step _ _ _ _ _ _ _ Hs).
  - apply plain_row_step. simpl. by rewrite Hs.
Qed.

(** C4.  A contest row (a link in the first cell, no [<strong>]) met with a
    tracked start date: when its start time string does not parse, the row
    appends no event; when its start time string is there and parses but
    its end time string does not parse, the row appends one event with a
    null [end_dt], the tracked start date combined with the parsed time as
    [start_dt], and the title, mode and note of the row. *)
Theorem start_time_decides_end_time_is_optional :
  forall parse_date parse_time current_year sd ed td0 tds l,
    strong td0 = None -> link td0 = Some l ->
    (parse_time (time_strings (td0 :: tds)).1 = None ->
     (row_step parse_date parse_time current_year (Some sd, ed)
               (td0 :: tds)).2 = [])
    /\ (forall t1,
          (time_strings (td0 :: tds)).1 <> "" ->
          parse_time (time_strings (td0 :: tds)).1 = Some t1 ->
          parse_time (time_strings (td0 :: tds)).2 = None ->
          (row_step parse_date parse_time current_year (Some sd, ed)
                    (td0 :: tds)).2
          = [mkevent l (combine sd t1) None
                     (cell_text (td0 :: tds) 2) (cell_text (td0 :: tds) 3)]).
Proof.
  intros pd pt cy sd ed td0 tds l Hs Hl.
  unfold row_step. rewrite Hs, Hl. cbn [fst snd]. unfold contest_events.
  destruct (time_strings (td0 :: tds)) as [start_str end_str]. cbn [fst snd].
  unfold try_times. split.
  - intros Hp. rewrite Hp.
    destruct (Py.truthy start_str); [done|].
    by destruct (Py.truthy end_str), (pt end_str).
  - intros t1 Hne Hp He. rewrite Hp, He.
    destruct start_str; [done|]. cbn [Py.truthy].
    by destruct (Py.truthy end_str).
Qed.

Lemma start_time_decides_end_time_is_optional_witness :
  (row_step Examples.parse_date Examples.parse_time 2025
            (Some Examples.jan6, Some Examples.jan7)
            (Examples.contest_row "Test Contest" "abends-18:00Z" "CW")).2 = []
  /\ (row_step Examples.parse_date Examples.parse_time 2025
               (Some Examples.jan6, Some Examples.jan7)
               (Examples.contest_row "Test Contest" "15:00-Ende offen" "CW")).2
     = [mkevent "Test Contest" (combine Examples.jan6 (mktime 15 0 0 0)) None
                "CW" ""].
Proof.
  split.
  - apply (start_time_decides_end_time_is_optional
             Examples.parse_date Examples.parse_time 2025
             Examples.jan6 (Some Examples.jan7)
             (mkcell None (Some "Test Contest") "Test Contest")
             [mkcell None None "abends-18:00Z"; mkcell None None "CW"]
             "Test Contest" eq_refl eq_refl).
    reflexivity.
  - apply (start_time_decides_end_time_is_optional
             Examples.parse_date Examples.parse_time 2025
             Examples.jan6 (Some Examples.jan7)
             (mkcell None (Some "Test Contest") "Test Contest")
             [mkcell None None "15:00-Ende offen"; mkcell None None "CW"]
             "Test Contest" eq_refl eq_refl).
    + discriminate.
    + reflexivity.
    + reflexivity.
Defined.

(** C3.  When the start-date fragment of a header row fails to parse, the
    tracked start date becomes null, and the tracked end date too unless
    the header has a range whose own end fragment parses.  Then every
    following row up to the next header row, contest rows with a link
    included, appends no event and leaves that state alone: the scrape
    goes on from the next header row as if those rows were not there. *)
Theorem failed_header_detaches_following_rows :
  forall parse_date parse_time current_year (st : tracker)
         td0 tds s (rows rest : list row),
    strong td0 = Some s ->
    parse_date (start_fragment (Py.replace_char Py.nbsp " " s)) = None ->
    Forall (fun r => is_header r = false) rows ->
    (header_dates parse_date current_year s).1 = None
    /\ (match end_fragment (Py.replace_char Py.nbsp " " s) with
        | Some f => parse_date f = None
        | None => True
        end ->
        header_dates parse_date current_year s = (None, None))
    /\ (row_step parse_date parse_time current_year st (td0 :: tds)).1
       = header_dates parse_date current_year s
    /\ scrape_rows parse_date parse_time current_year st
         ((td0 :: tds) :: rows ++ rest)
       = scrape_rows parse_date parse_time current_year
           (header_dates parse_date current_year s) rest.
Proof.
  intros pd pt cy st td0 tds s rows rest Hs Hp Hrows.
  assert (Hstart : (header_dates pd cy s).1 = None).
  { unfold header_dates, parse_in_year. cbn [fst]. by rewrite Hp. }
  split; [done|]. split.
  { unfold header_dates, parse_in_year. rewrite Hp.
    destruct (end_fragment _) as [f|]; [|done]. by intros ->. }
  split.
  { by rewrite (header_row_step _ _ _ _ _ _ _ Hs). }
  cbn [scrape_rows]. rewrite (header_row_step _ _ _ _ _ _ _ Hs).
  destruct (header_dates pd cy s) as [sd ed]. cbn [fst] in Hstart. subst sd.
  rewrite detached_rows_run by done.
  by destruct (scrape_rows pd pt cy (None, ed) rest).
Qed.

Lemma failed_header_detaches_following_rows_witness :
  (header_dates Examples.parse_date 2025 "Sa 06.").1 = None
  /\ scrape_rows Examples.parse_date Examples.parse_time 2025
       (Some Examples.jan6, Some Examples.jan7)
       (Examples.header_row "Sa 06."
        :: [Examples.contest_row "Test Contest" "15:00-18:00Z" "CW"; []]
           ++ [Examples.header_row "So. 07.01.";
               Examples.contest_row "Test Contest" "15:00-18:00Z" "CW"])
     = scrape_rows Examples.parse_date Examples.parse_time 2025
         (header_dates Examples.parse_date 2025 "Sa 06.")
         [Examples.header_row "So. 07.01.";
          Examples.contest_row "Test Contest" "15:00-18:00Z" "CW"].
Proof.
  pose proof (failed_header_detaches_following_rows
                Examples.parse_date Examples.parse_time 2025
                (Some Examples.jan6, Some Examples.jan7)
                (mkcell (Some "Sa 06.") None "Sa 06.") [] "Sa 06."
                [Examples.contest_row "Test Contest" "15:00-18:00Z" "CW"; []]
                [Examples.header_row "So. 07.01.";
                 Examples.contest_row "Test Contest" "15:00-18:00Z" "CW"]
                eq_refl eq_refl) as H.
  destruct H as (H1 & _ & _ & H4).
  - repeat constructor.
  - exact (conj H1 H4).
Defined.

(** C1, as the code has it.  A header whose date fragments follow a
    dot-closed prefix (a weekday abbreviation, say): the prefix is cut off
    and the fragment goes to the parser as it is.  When the parser reads a
    calendar day from it, whatever year it attaches, and that day exists in
    the current year, the tracked date is that day in the current year: the
    start and the end alike for a single date, the second fragment's day
    as the end for a range of two fragments with both their dots.  When
    the parser finds no date in the fragment of a single date, both
    tracked dates are null. *)
Theorem prefixed_header_tracks_parsed_days_in_current_year :
  forall parse_date current_year,
    (forall s p f d,
        Py.replace_char Py.nbsp " " s = segment p f ->
        Py.count "-" (segment p f) = 0 -> dotted p f ->
        parse_date f = Some d ->
        valid_date current_year (month d) (day d) = true ->
        header_dates parse_date current_year s
        = (Some (mkdate current_year (month d) (day d)),
           Some (mkdate current_year (month d) (day d))))
    /\ (forall s p1 f1 p2 f2 d1 d2,
        Py.replace_char Py.nbsp " " s
          = segment p1 f1 +:+ "-" +:+ segment p2 f2 ->
        Py.count "-" (segment p1 f1) = 0 -> dotted p1 f1 -> dotted p2 f2 ->
        2 <= Py.count "." f1 -> 2 <= Py.count "." f2 ->
        parse_date f1 = Some d1 -> parse_date f2 = Some d2 ->
        valid_date current_year (month d1) (day d1) = true ->
        valid_date current_year (month d2) (day d2) = true ->
        header_dates parse_date current_year s
        = (Some (mkdate current_year (month d1) (day d1)),
           Some (mkdate current_year (month d2) (day d2))))
    /\ (forall s p f,
        Py.replace_char Py.nbsp " " s = segment p f ->
        Py.count "-" (segment p f) = 0 -> dotted p f ->
        parse_date f = None ->
        header_dates parse_date current_year s = (None, None)).
Proof.
  intros pd cy. split; [|split].
  - intros s p f d Hs Hm Hd Hp Hv. unfold header_dates. rewrite Hs.
    destruct (start_fragment_single p f Hm Hd) as [-> ->].
    by rewrite (parse_in_year_valid _ _ _ _ Hp Hv).
  - intros s p1 f1 p2 f2 d1 d2 Hs Hm Hd1 Hd2 Hc1 Hc2 Hp1 Hp2 Hv1 Hv2.
    unfold header_dates. rewrite Hs.
    destruct (fragments_range p1 f1 p2 f2 Hm Hd1 Hd2 Hc1 Hc2) as [-> ->].
    by rewrite (parse_in_year_valid _ _ _ _ Hp1 Hv1),
               (parse_in_year_valid _ _ _ _ Hp2 Hv2).
  - intros s p f Hs Hm Hd Hp. unfold header_dates. rewrite Hs.
    destruct (start_fragment_single p f Hm Hd) as [-> ->].
    unfold parse_in_year. by rewrite Hp.
Qed.

Lemma prefixed_header_tracks_parsed_days_in_current_year_witness :
  header_dates Examples.parse_date 2025 "Sa. 06.01.2024"
  = (Some Examples.jan6, Some Examples.jan6)
  /\ header_dates Examples.parse_date 2025 "Sa. 06.01.2024-So. 07.01.2024"
     = (Some Examples.jan6, Some Examples.jan7)
  /\ header_dates Examples.parse_date 2025 "Sa. 06.01." = (None, None).
Proof.
  pose proof (prefixed_header_tracks_parsed_days_in_current_year
                Examples.parse_date 2025) as (Hone & Htwo & Hnone).
  split; [|split].
  - apply (Hone "Sa. 06.01.2024" "Sa" " 06.01.2024" (mkdate 2024 1 6));
      try reflexivity.
    split; reflexivity.
  - apply (Htwo "Sa. 06.01.2024-So. 07.01.2024"
                "Sa" " 06.01.2024" "So" " 07.01.2024"
                (mkdate 2024 1 6) (mkdate 2024 1 7));
      try reflexivity; try (split; reflexivity); vm_compute; discriminate.
  - apply (Hnone "Sa. 06.01." "Sa" " 06.01."); try reflexivity.
    split; reflexivity.
Defined.

(** C1 fails as stated: a header that is a bare "DD.MM." (or a bare
    "DD.MM.-DD.MM.") loses its day before any parser sees it, so no parser
    can make both 06.01. and 07.01. come out as their own days. *)
Lemma bare_day_month_header_loses_the_day :
  ~ (exists parse_date current_year,
        header_dates parse_date current_year "06.01."
        = (Some (mkdate current_year 1 6), Some (mkdate current_year 1 6))
        /\ header_dates parse_date current_year "07.01."
           = (Some (mkdate current_year 1 7), Some (mkdate current_year 1 7)))
  /\ ~ (exists parse_date current_year,
        header_dates parse_date current_year "06.01.-08.01."
        = (Some (mkdate current_year 1 6), Some (mkdate current_year 1 8))
        /\ header_dates parse_date current_year "07.01.-08.01."
           = (Some (mkdate current_year 1 7), Some (mkdate current_year 1 8))).
Proof.
  split; intros (pd & cy & H6 & H7).
  - assert (E : header_dates pd cy "06.01." = header_dates pd cy "07.01.")
      by reflexivity.
    rewrite H6, H7 in E. discriminate.
  - assert (E : header_dates pd cy "06.01.-08.01."
                = header_dates pd cy "07.01.-08.01.") by reflexivity.
    rewrite H6, H7 in E. discriminate.
Qed.

(** The header text of the end-to-end example: what the parser is handed,
    and what follows when it finds no date in the first fragment. *)
Lemma weekday_header_without_month parse_date parse_time :
  start_fragment "Sa 06.-So 07.01." = "."
  /\ end_fragment "Sa 06.-So 07.01." = Some "01.."
  /\ (parse_date "." = None ->
      (header_dates parse_date 2025 "Sa 06.-So 07.01.").1 = None
      /\ scrape_all_contests parse_date parse_time 2025
           [Examples.header_row "Sa 06.-So 07.01.";
            Examples.contest_row "Test Contest" "15:00-18:00Z" "CW"]
         = []).
Proof.
  split; [reflexivity|]. split; [reflexivity|].
  intros Hdot.
  assert (H : (header_dates parse_date 2025 "Sa 06.-So 07.01.").1 = None).
  { unfold header_dates, parse_in_year. cbn [fst].
    change (start_fragment _) with ".". by rewrite Hdot. }
  split; [done|].
  unfold scrape_all_contests, Examples.header_row.
  cbn [scrape_rows row_step strong].
  destruct (header_dates parse_date 2025 "Sa 06.-So 07.01.") as [sd ed].
  cbn [fst] in H. subst sd. reflexivity.
Qed.

(** C2, as the code has it.  From the header text "Sa 06.-So 07.01." the
    parser is handed "." for the start date and "01.." for the end date:
    the day numbers are cut off with the weekdays.  With a parser that
    finds no date in "." the tracked start date is null, the tracked end
    date is what the parser makes of "01.." put into the year 2025, and
    the following contest row "Test Contest", "15:00-18:00Z", "CW" appends
    no event. *)
Theorem day_only_header_end_to_end :
  forall parse_date parse_time,
    start_fragment "Sa 06.-So 07.01." = "."
    /\ end_fragment "Sa 06.-So 07.01." = Some "01.."
    /\ (parse_date "." = None ->
        header_dates parse_date 2025 "Sa 06.-So 07.01."
        = (None, parse_in_year parse_date 2025 "01..")
        /\ scrape_all_contests parse_date parse_time 2025
             [Examples.header_row "Sa 06.-So 07.01.";
              Examples.contest_row "Test Contest" "15:00-18:00Z" "CW"]
           = []).
Proof.
  intros pd pt.
  destruct (weekday_header_without_month pd pt) as (Hs & He & Hcode).
  split; [done|]. split; [done|]. intros Hdot.
  split; [|by apply Hcode].
  unfold header_dates, parse_in_year.
  change (start_fragment _) with ".".
  change (end_fragment _) with (Some "01..").
  rewrite Hdot. by destruct (pd "01..") as [d|]; [destruct (replace_year d 2025)|].
Qed.

Lemma day_only_header_end_to_end_witness :
  header_dates Examples.parse_date 2025 "Sa 06.-So 07.01."
  = (None, Some (mkdate 2025 11 1))
  /\ scrape_all_contests Examples.parse_date Examples.parse_time 2025
       [Examples.header_row "Sa 06.-So 07.01.";
        Examples.contest_row "Test Contest" "15:00-18:00Z" "CW"]
     = [].
Proof.
  apply (day_only_header_end_to_end
           Examples.parse_date Examples.parse_time).
  reflexivity.
Defined.

(** C2 fails as stated: with a parser that finds no date in ".", which is
    all the start segment "Sa 06." leaves of itself, the header text
    "Sa 06.-So 07.01." does not set the tracked dates to 2025-01-06 and
    2025-01-07, and the contest row after it does not yield the event. *)
Lemma weekday_header_without_month_tracks_nothing :
  ~ (exists parse_date parse_time,
        parse_date "." = None
        /\ (header_dates parse_date 2025 "Sa 06.-So 07.01."
            = (Some (mkdate 2025 1 6), Some (mkdate 2025 1 7))
            \/ scrape_all_contests parse_date parse_time 2025
                 [Examples.header_row "Sa 06.-So 07.01.";
                  Examples.contest_row "Test Contest" "15:00-18:00Z" "CW"]
               = [Examples.test_contest])).
Proof.
  intros (pd & pt & Hdot & H).
  destruct (weekday_header_without_month pd pt) as (_ & _ & Hcode).
  destruct (Hcode Hdot) as [Hstart Hnone].
  destruct H as [H | H].
  - rewrite H in Hstart. discriminate.
  - rewrite Hnone in H. discriminate.
Qed.

(** * De-duplication *)

Section Dedup.

Implicit Types (seen : gset (string * datetime)) (l acc r : list event).

Lemma dedup_step_seen seen acc e :
  dedup_key e ∈ seen -> dedup_step (seen, acc) e = (seen, acc).
Proof. intros H. unfold dedup_step. cbn [fst snd]. by rewrite decide_True. Qed.

Lemma dedup_step_fresh seen acc e :
  dedup_key e ∉ seen ->
  dedup_step (seen, acc) e = ({[dedup_key e]} ∪ seen, acc ++ [e]).
Proof. intros H. unfold dedup_step. cbn [fst snd]. by rewrite decide_False. Qed.

(** The keys seen after the loop: those seen before and those of the
    events met. *)
Lemma dedup_fold_seen l seen acc :
  (fold_left dedup_step l (seen, acc)).1
  = list_to_set (dedup_key <$> l) ∪ seen.
Proof.
  revert seen acc. induction l as [|e l IH]; intros seen acc.
  - cbn. set_solver.
  - cbn [fold_left]. destruct (decide (dedup_key e ∈ seen)) as [Hin|Hout].
    + rewrite (dedup_step_seen _ _ _ Hin), IH. set_solver.
    + rewrite (dedup_step_fresh _ _ _ Hout), IH. set_solver.
Qed.

(** What the loop appends: a sub-list of the events met, in their order,
    with keys that were not seen before and that differ from each
    other. *)
Lemma dedup_fold_unique l seen acc :
  exists r,
    (fold_left dedup_step l (seen, acc)).2 = acc ++ r
    /\ r `sublist_of` l
    /\ (forall e, e ∈ r -> dedup_key e ∉ seen)
    /\ NoDup (dedup_key <$> r).
Proof.
  revert seen acc. induction l as [|e l IH]; intros seen acc.
  - exists []. cbn. rewrite app_nil_r. repeat split; try done.
    + intros e He. by apply elem_of_nil in He.
    + constructor.
  - cbn [fold_left]. destruct (decide (dedup_key e ∈ seen)) as [Hin|Hout].
    + rewrite (dedup_step_seen _ _ _ Hin).
      destruct (IH seen acc) as (r & Hr & Hsub & Hnew & Hnd).
      exists r. repeat split; try done. by apply sublist_cons.
    + rewrite (dedup_step_fresh _ _ _ Hout).
      destruct (IH ({[dedup_key e]} ∪ seen) (acc ++ [e]))
        as (r & Hr & Hsub & Hnew & Hnd).
      exists (e :: r). split; [by rewrite Hr, <- app_assoc|].
      split; [by apply sublist_skip|]. split.
      * intros e' [->|He']%elem_of_cons; [done|].
        specialize (Hnew e' He'). set_solver.
      * rewrite fmap_cons. apply NoDup_cons. split; [|done].
        intros Hin. apply list_elem_of_fmap in Hin as (e' & Hk & He').
        apply (Hnew e' He'). rewrite <- Hk. set_solver.
Qed.

Lemma deduplicate_app l1 l2 :
  deduplicate (l1 ++ l2)
  = (fold_left dedup_step l2
       (list_to_set (dedup_key <$> l1), deduplicate l1)).2.
Proof.
  unfold deduplicate. rewrite fold_left_app.
  destruct (fold_left dedup_step l1 (∅, [])) as [seen acc] eqn:E.
  pose proof (dedup_fold_seen l1 ∅ []) as Hs. rewrite E in Hs.
  cbn [fst snd] in *. by rewrite Hs, union_empty_r_L.
Qed.

End Dedup.

(** Two events have the same key exactly when they have the same title
    and the same start. *)
Lemma dedup_key_eq (a b : event) :
  dedup_key a = dedup_key b <-> title a = title b /\ start_dt a = start_dt b.
Proof. unfold dedup_key. split; [by intros [= -> ->] | by intros [-> ->]]. Qed.

Lemma dedup_key_fresh (e : event) (l : list event) :
  dedup_key e ∉ dedup_key <$> l
  <-> forall x, x ∈ l -> title x = title e -> start_dt x = start_dt e -> False.
Proof.
  rewrite list_elem_of_fmap. split.
  - intros H x Hx Ht Hs. apply H. exists x. split; [|done].
    by apply dedup_key_eq.
  - intros H (x & Hk & Hx). apply dedup_key_eq in Hk as [Ht Hs].
    by apply (H x).
Qed.

Lemma dedup_key_distinct (l : list event) :
  NoDup (dedup_key <$> l)
  <-> forall i j a b,
        l !! i = Some a -> l !! j = Some b ->
        title a = title b -> start_dt a = start_dt b -> i = j.
Proof.
  rewrite NoDup_alt. split.
  - intros H i j a b Ha Hb Ht Hs. apply (H i j (dedup_key a)).
    + by rewrite list_lookup_fmap, Ha.
    + rewrite list_lookup_fmap, Hb. cbn. f_equal. by apply dedup_key_eq.
  - intros H i j k Hi Hj. rewrite list_lookup_fmap in Hi, Hj.
    destruct (l !! i) as [a|] eqn:Ha; [|done].
    destruct (l !! j) as [b|] eqn:Hb; [|done].
    cbn in Hi, Hj.
    assert (Hk : dedup_key a = dedup_key b) by congruence.
    apply dedup_key_eq in Hk as [Ht Hs]. by apply (H i j a b).
Qed.

(** C5.  De-duplication returns a sub-list of the events in their
    document order; no two survivors have the same title and the same
    start; an event with no event of its title and start before it
    survives, right after the survivors of the events before it; an
    event with an event of its title and start before it is discarded,
    and the result is what it would be without that event. *)
Theorem deduplicate_keeps_first_of_each_key :
  forall events : list event,
    deduplicate events `sublist_of` events
    /\ (forall i j a b,
          deduplicate events !! i = Some a ->
          deduplicate events !! j = Some b ->
          title a = title b -> start_dt a = start_dt b -> i = j)
    /\ (forall l1 e l2,
          events = l1 ++ e :: l2 ->
          (forall x, x ∈ l1 ->
                     title x = title e -> start_dt x = start_dt e -> False) ->
          exists r, deduplicate events = deduplicate l1 ++ e :: r)
    /\ (forall l1 e l2 x,
          events = l1 ++ e :: l2 ->
          x ∈ l1 -> title x = title e -> start_dt x = start_dt e ->
          deduplicate events = deduplicate (l1 ++ l2)).
Proof.
  intros events. split; [|split; [|split]].
  - destruct (dedup_fold_unique events ∅ []) as (r & Hr & Hsub & _).
    unfold deduplicate. by rewrite Hr.
  - apply dedup_key_distinct.
    destruct (dedup_fold_unique events ∅ []) as (r & Hr & _ & _ & Hnd).
    unfold deduplicate. by rewrite Hr.
  - intros l1 e l2 -> Hfresh%dedup_key_fresh.
    rewrite deduplicate_app. cbn [fold_left].
    rewrite dedup_step_fresh by set_solver.
    destruct (dedup_fold_unique l2
                ({[dedup_key e]} ∪ list_to_set (dedup_key <$> l1))
                (deduplicate l1 ++ [e])) as (r & Hr & _).
    exists r. by rewrite Hr, <- app_assoc.
  - intros l1 e l2 x -> Hx Ht Hs.
    assert (Hdup : dedup_key e ∈ dedup_key <$> l1).
    { apply list_elem_of_fmap. exists x. split; [|done].
      symmetry. by apply dedup_key_eq. }
    rewrite !deduplicate_app. cbn [fold_left].
    rewrite dedup_step_seen by set_solver. done.
Qed.

Lemma deduplicate_keeps_first_of_each_key_witness :
  (exists r,
      deduplicate [Examples.cw_event; Examples.ssb_event;
                   Examples.cw_event_again]
      = deduplicate [Examples.cw_event] ++ Examples.ssb_event :: r)
  /\ deduplicate [Examples.cw_event; Examples.ssb_event;
                  Examples.cw_event_again]
     = deduplicate ([Examples.cw_event; Examples.ssb_event] ++ []).
Proof.
  pose proof (deduplicate_keeps_first_of_each_key
                [Examples.cw_event; Examples.ssb_event;
                 Examples.cw_event_again]) as (_ & _ & Hfirst & Hlater).
  split.
  - apply (Hfirst [Examples.cw_event] Examples.ssb_event
                  [Examples.cw_event_again] eq_refl).
    intros x Hx%list_elem_of_singleton Ht. subst x. discriminate Ht.
  - apply (Hlater [Examples.cw_event; Examples.ssb_event]
                  Examples.cw_event_again [] Examples.cw_event eq_refl).
    + apply list_elem_of_In. left. reflexivity.
    + reflexivity.
    + reflexivity.
Defined.

(** * The filters *)

Lemma mode_matches_spec pats e :
  mode_matches pats e = true
  <-> exists pat, In pat pats
        /\ (occurs_in pat (normalize (mode e))
            \/ occurs_in (normalize (mode e)) pat).
Proof.
  unfold mode_matches. rewrite existsb_exists.
  split; intros (pat & Hin & H); exists pat; (split; [done|]).
  - apply orb_true_iff in H. by rewrite <- !contains_spec.
  - apply orb_true_iff. by rewrite !contains_spec.
Qed.

(** What the mode test adds to the other two tests of the loop body. *)
Lemma keeps_with_patterns current_year months pats e :
  pats <> [] ->
  keeps current_year months (Some pats) e
  = keeps current_year months None e && mode_matches pats e.
Proof.
  intros Hne. unfold keeps.
  destruct (out_of_year current_year e); [done|].
  destruct (given months && out_of_months (default [] months) e); [done|].
  destruct pats; [done|]. cbn [given default andb].
  by destruct (mode_matches _ e).
Qed.

Lemma filter_events_no_modes current_year events months :
  filter_events current_year events months None
  = List.filter (keeps current_year months None) events.
Proof. reflexivity. Qed.

Lemma filter_events_modes current_year events months modes :
  modes <> [] ->
  filter_events current_year events months (Some modes)
  = List.filter (keeps current_year months (Some (map normalize modes)))
      events.
Proof. intros Hne. unfold filter_events. by destruct modes. Qed.

Lemma in_filter_events_modes current_year events months modes e :
  modes <> [] ->
  In e (filter_events current_year events months (Some modes))
  <-> In e (filter_events current_year events months None)
      /\ mode_matches (map normalize modes) e = true.
Proof.
  intros Hne.
  rewrite filter_events_modes, filter_events_no_modes, !filter_In by done.
  rewrite keeps_with_patterns by (by destruct modes).
  rewrite andb_true_iff. tauto.
Qed.

(** C6.  With a non-empty list of mode patterns, an event passes the mode
    filter (it is in the filtered list exactly when it would be there
    without the mode filter and) exactly when, for some pattern, the
    normalised pattern occurs in the normalised mode or the normalised
    mode occurs in the normalised pattern.  The pattern "cw" lets mode
    "CW" through and stops mode "SSB". *)
Theorem mode_filter_is_symmetric_containment :
  forall current_year events months,
    (forall modes e,
        modes <> [] ->
        In e (filter_events current_year events months (Some modes))
        <-> In e (filter_events current_year events months None)
            /\ exists m, In m modes
                 /\ (occurs_in (normalize m) (normalize (mode e))
                     \/ occurs_in (normalize (mode e)) (normalize m)))
    /\ (forall e, mode e = "CW" ->
          In e (filter_events current_year events months (Some ["cw"]))
          <-> In e (filter_events current_year events months None))
    /\ (forall e, mode e = "SSB" ->
          ~ In e (filter_events current_year events months (Some ["cw"]))).
Proof.
  intros cy events months. split; [|split].
  - intros modes e Hne. rewrite in_filter_events_modes by done.
    rewrite mode_matches_spec. split.
    + intros [H (pat & (m & <- & Hm)%in_map_iff & Hocc)]. eauto.
    + intros [H (m & Hm & Hocc)]. split; [done|].
      exists (normalize m). split; [|done]. apply in_map_iff. eauto.
  - intros e He. rewrite in_filter_events_modes by done.
    unfold mode_matches. rewrite He. cbn. tauto.
  - intros e He. rewrite in_filter_events_modes by done.
    unfold mode_matches. rewrite He. cbn. intros [_ H]. discriminate.
Qed.

Lemma mode_filter_is_symmetric_containment_witness :
  In Examples.cw_event (filter_events 2025 [Examples.cw_event; Examples.ssb_event] None (Some ["C W"; "rtty"]))
  /\ ~ In Examples.ssb_event (filter_events 2025 [Examples.cw_event; Examples.ssb_event] None (Some ["cw"])).
Proof.
  split.
  - apply (proj1 (mode_filter_is_symmetric_containment
                    2025 [Examples.cw_event; Examples.ssb_event] None) ["C W"; "rtty"] Examples.cw_event).
    + discriminate.
    + split; [left; reflexivity|].
      exists "C W". split; [left; reflexivity|].
      left. exists "", "". reflexivity.
  - apply (proj2 (proj2 (mode_filter_is_symmetric_containment
                           2025 [Examples.cw_event; Examples.ssb_event] None))).
    reflexivity.
Defined.

(** C10.  An event whose mode normalises to the empty string is never
    stopped by the mode filter: the empty string occurs in every pattern,
    so with any list of patterns the event is in the filtered list exactly
    when it would be there without a mode filter. *)
Theorem empty_mode_passes_every_mode_filter :
  forall current_year events months (modes : list string) e,
    normalize (mode e) = "" ->
    (forall m, occurs_in (normalize (mode e)) (normalize m))
    /\ (In e (filter_events current_year events months (Some modes))
        <-> In e (filter_events current_year events months None)).
Proof.
  intros cy events months modes e He. split.
  - intros m. rewrite He. exists "", (normalize m). reflexivity.
  - destruct modes as [|m modes]; [reflexivity|].
    rewrite in_filter_events_modes by done.
    unfold mode_matches. rewrite He. cbn [map existsb].
    rewrite contains_empty, orb_true_r. cbn. tauto.
Qed.

Lemma empty_mode_passes_every_mode_filter_witness :
  In Examples.blank_mode_event
     (filter_events 2025 [Examples.cw_event; Examples.blank_mode_event] None (Some ["ssb"])).
Proof.
  apply (proj2 (empty_mode_passes_every_mode_filter
                  2025 [Examples.cw_event; Examples.blank_mode_event] None ["ssb"]
                  Examples.blank_mode_event eq_refl)).
  right; left; reflexivity.
Defined.

(** * The exporter *)

Lemma property_add_other name name' v ps :
  Py.map_chars upper_char name' <> name ->
  property name (add name' v ps) = property name ps.
Proof.
  intros Hne. unfold property, add. induction ps as [|[n w] ps IH].
  - cbn. by rewrite bool_decide_eq_false_2.
  - cbn. destruct (bool_decide (n = name)); [done|]. apply IH.
Qed.

Lemma property_add_new name name' v ps :
  Py.map_chars upper_char name' = name ->
  property name ps = None ->
  property name (add name' v ps) = Some v.
Proof.
  intros He. unfold property, add. induction ps as [|[n w] ps IH].
  - intros _. cbn. by rewrite bool_decide_eq_true_2.
  - cbn. destruct (bool_decide (n = name)); [done|]. apply IH.
Qed.

(** The entry of an event before the purge mark has no STATUS. *)
Lemma vevent_status uuid4 now purge n e :
  property "STATUS" (vevent uuid4 now purge n e)
  = if purge then Some (VText "CANCELLED") else None.
Proof.
  unfold vevent, add_if.
  assert (H : forall ps : properties,
             property "STATUS" ps = None ->
             property "STATUS"
               (add "description"
                  (VText (if Py.truthy (note e)
                          then ("Mode: " +:+ mode e) +:+ newline
                               +:+ "Notiz: " +:+ note e
                          else "Mode: " +:+ mode e)) ps) = None).
  { intros ps Hps. by rewrite property_add_other. }
  assert (H0 : property "STATUS"
                 (add "summary" (VText (title e))
                    match end_dt e with
                    | Some d =>
                        add "dtend" (VDateTime d)
                          (add "dtstart" (VDateTime (start_dt e))
                             (add "dtstamp" (VDateTime now)
                                (add "uid" (VText (uuid4 n +:+ "@darc.de")) [])))
                    | None =>
                        add "dtstart" (VDateTime (start_dt e))
                          (add "dtstamp" (VDateTime now)
                             (add "uid" (VText (uuid4 n +:+ "@darc.de")) []))
                    end) = None).
  { destruct (end_dt e); by rewrite !property_add_other. }
  destruct purge.
  - apply property_add_new; [done|]. by apply H.
  - by apply H.
Qed.

Lemma calendar_method uuid4 now events calname purge :
  property "METHOD" (cal_props (build_calendar uuid4 now events calname purge))
  = if purge then Some (VText "CANCEL") else None.
Proof.
  unfold build_calendar, add_if. cbn [cal_props].
  destruct purge, calname as [n|]; try destruct (Py.truthy n);
    first [ by apply property_add_new; [done|]; rewrite !property_add_other
          | by rewrite !property_add_other ].
Qed.

(** C7.  For every list of events and every export: with [purge] set the
    calendar has the property METHOD with the value CANCEL and every entry
    (there is one per event) has the property STATUS with the value
    CANCELLED; with [purge] unset the calendar has no METHOD property and
    no entry has a STATUS property. *)
Theorem purge_marks_calendar_and_every_entry :
  forall uuid4 now write_error events filename calname,
    (property "METHOD"
       (cal_props (export_to_ics uuid4 now write_error events filename
                                 calname true).1)
     = Some (VText "CANCEL")
     /\ length (cal_events (export_to_ics uuid4 now write_error events
                                          filename calname true).1)
        = length events
     /\ Forall (fun ev => property "STATUS" ev = Some (VText "CANCELLED"))
          (cal_events (export_to_ics uuid4 now write_error events filename
                                     calname true).1))
    /\ (property "METHOD"
          (cal_props (export_to_ics uuid4 now write_error events filename
                                    calname false).1)
        = None
        /\ Forall (fun ev => property "STATUS" ev = None)
             (cal_events (export_to_ics uuid4 now write_error events filename
                                        calname false).1)).
Proof.
  intros uuid4 now werr events filename calname.
  assert (Hcal : forall purge : bool,
             (export_to_ics uuid4 now werr events filename calname purge).1
             = build_calendar uuid4 now events calname purge).
  { intros purge. unfold export_to_ics. by destruct werr. }
  assert (Hentries : forall purge : bool,
             Forall (fun ev => property "STATUS" ev
                               = if purge then Some (VText "CANCELLED")
                                 else None)
               (cal_events (build_calendar uuid4 now events calname purge))).
  { intros purge. unfold build_calendar. cbn [cal_events].
    apply Forall_forall. intros ev Hev.
    apply elem_of_lookup_imap in Hev as (n & e & -> & _).
    apply vevent_status. }
  rewrite !Hcal. repeat split.
  - apply calendar_method.
  - unfold build_calendar. cbn [cal_events]. apply length_imap.
  - apply (Hentries true).
  - apply calendar_method.
  - apply (Hentries false).
Qed.

(** * The presenter *)

(** C9, as the code has it.  For an empty list the presenter prints the
    header line and the rule of dashes as for any list, and then the
    placeholder line in the place of the event lines. *)
Theorem empty_list_prints_header_rule_and_placeholder :
  format_and_print_events []
  = ["Contest  Startdatum  Startzeit  Enddatum  Endzeit  Mode  Notiz";
     "--------------------------------------------------------------";
     no_entries].
Proof. reflexivity. Qed.

(** C9 fails as stated: the placeholder does not stand instead of the
    table header; the header line comes first and the placeholder third. *)
Lemma empty_list_still_prints_the_table_header :
  format_and_print_events [] <> [no_entries]
  /\ head (format_and_print_events [])
     = Some "Contest  Startdatum  Startzeit  Enddatum  Endzeit  Mode  Notiz".
Proof. split; [discriminate | reflexivity]. Qed.

(** * More on the scraper *)

Section ScraperMore.

Variable parse_date : string -> option date.
Variable parse_time : string -> option time.
Variable current_year : Z.

Abbreviation step' := (row_step parse_date parse_time current_year).
Abbreviation run' := (scrape_rows parse_date parse_time current_year).

Lemma scrape_rows_cons st r rows :
  run' st (r :: rows)
  = ((run' (step' st r).1 rows).1,
     (step' st r).2 ++ (run' (step' st r).1 rows).2).
Proof.
  change (run' st (r :: rows))
    with (let '(st1, evs) := step' st r in
          let '(st2, evs') := run' st1 rows in (st2, evs ++ evs')).
  destruct (step' st r) as [st1 evs]. cbn [fst snd].
  by destruct (run' st1 rows).
Qed.

Lemma scrape_rows_append st a b :
  run' st (a ++ b)
  = ((run' (run' st a).1 b).1, (run' st a).2 ++ (run' (run' st a).1 b).2).
Proof.
  revert st. induction a as [|r a IH]; intros st.
  - cbn. by destruct (run' st b).
  - rewrite <- app_comm_cons, !scrape_rows_cons, IH. cbn [fst snd].
    by rewrite app_assoc.
Qed.

Lemma replace_year_in_year d d' :
  replace_year d current_year = Some d' -> in_year current_year d'.
Proof.
  unfold replace_year, in_year.
  destruct (valid_date _ _ _) eqn:Hv; [|done]. by intros [= <-].
Qed.

Lemma parse_in_year_in_year s d :
  parse_in_year parse_date current_year s = Some d -> in_year current_year d.
Proof.
  unfold parse_in_year. destruct (parse_date s); [|done].
  apply replace_year_in_year.
Qed.

Lemma header_dates_ok s :
  tracker_ok current_year (header_dates parse_date current_year s).
Proof.
  unfold header_dates.
  destruct (parse_in_year _ _ (start_fragment _)) as [d1|] eqn:H1;
    destruct (end_fragment _) as [f|];
    try destruct (parse_in_year _ _ f) as [d2|] eqn:H2; cbn;
    eauto using parse_in_year_in_year.
Qed.

Lemma row_step_ok st r :
  tracker_ok current_year st -> tracker_ok current_year (step' st r).1.
Proof.
  intros Hst. destruct r as [|td0 tds]; [done|]. cbn [row_step].
  destruct (strong td0); [apply header_dates_ok|].
  by destruct (link td0), st as [[sd|] ed].
Qed.

Lemma scrape_rows_ok st rows :
  tracker_ok current_year st -> tracker_ok current_year (run' st rows).1.
Proof.
  revert st. induction rows as [|r rows IH]; intros st Hst; [done|].
  rewrite scrape_rows_cons. cbn [fst]. by apply IH, row_step_ok.
Qed.

(** The dates of an event come from the tracked pair. *)
Lemma contest_events_dates sd ed l tds e :
  e ∈ contest_events parse_time sd ed l tds ->
  title e = l
  /\ dt_date (start_dt e) = sd
  /\ (forall d, end_dt e = Some d ->
        dt_date d = match ed with Some x => x | None => sd end).
Proof.
  unfold contest_events. destruct (time_strings tds) as [a b].
  unfold try_times.
  destruct (Py.truthy a); [destruct (parse_time a) as [t1|]|];
    destruct (Py.truthy b); try destruct (parse_time b) as [t2|];
    cbn; intros He; try (by apply elem_of_nil in He);
    apply list_elem_of_singleton in He as ->; cbn;
    (split; [done|]); (split; [done|]); intros d [= <-]; done.
Qed.

Lemma row_step_events_in_year st r :
  tracker_ok current_year st -> Forall (event_in_year current_year) (step' st r).2.
Proof.
  intros Hst. destruct r as [|td0 tds]; [by constructor|]. cbn [row_step].
  destruct (strong td0); [by constructor|].
  destruct (link td0) as [l|], st as [[sd|] ed]; try by constructor.
  cbn [fst snd]. apply Forall_forall. intros e He.
  apply contest_events_dates in He as (_ & Hs & He).
  destruct ed as [ed|]; [|done]. destruct Hst as [Hsd Hed].
  split; [by rewrite Hs|]. intros d Hd. by rewrite (He d Hd).
Qed.

Lemma scrape_rows_events_in_year st rows :
  tracker_ok current_year st -> Forall (event_in_year current_year) (run' st rows).2.
Proof.
  revert st. induction rows as [|r rows IH]; intros st Hst; [by constructor|].
  rewrite scrape_rows_cons. cbn [snd]. apply Forall_app. split.
  - by apply row_step_events_in_year.
  - by apply IH, row_step_ok.
Qed.

Lemma contest_events_length sd ed l tds :
  (length (contest_events parse_time sd ed l tds) <= 1)%nat.
Proof.
  unfold contest_events. destruct (time_strings tds) as [a b].
  destruct (try_times _ _ _ _ _) as [[s|] e]; cbn; lia.
Qed.

Lemma row_step_length st r :
  (length (step' st r).2 <= if is_contest r then 1 else 0)%nat.
Proof.
  destruct r as [|td0 tds]; [done|]. cbn [row_step is_contest].
  destruct (strong td0); [done|].
  destruct (link td0) as [l|]; [|done].
  destruct st as [[sd|] ed]; cbn [fst snd length]; [|lia].
  apply contest_events_length.
Qed.

Lemma scrape_rows_length st rows :
  (length (run' st rows).2 <= length (List.filter is_contest rows))%nat.
Proof.
  revert st. induction rows as [|r rows IH]; intros st; [done|].
  rewrite scrape_rows_cons. cbn [snd List.filter]. rewrite length_app.
  pose proof (row_step_length st r). specialize (IH (step' st r).1).
  destruct (is_contest r); cbn [length]; lia.
Qed.

End ScraperMore.

(** X1.  Scraping a page in two parts: the rows of the second part are
    read from the tracked dates the first part ends with, and the events
    are those of the first part followed by those of the second. *)
Theorem scraping_continues_from_the_tracked_dates :
  forall parse_date parse_time current_year st (a b : list row),
    (scrape_rows parse_date parse_time current_year st (a ++ b)).1
    = (scrape_rows parse_date parse_time current_year
         (scrape_rows parse_date parse_time current_year st a).1 b).1
    /\ (scrape_rows parse_date parse_time current_year st (a ++ b)).2
       = (scrape_rows parse_date parse_time current_year st a).2
         ++ (scrape_rows parse_date parse_time current_year
               (scrape_rows parse_date parse_time current_year st a).1 b).2.
Proof. intros. by rewrite scrape_rows_append. Qed.

(** X2.  Rows that come before the first header row of the page yield
    nothing: the result is that of the page without them. *)
Theorem rows_before_the_first_header_are_dropped :
  forall parse_date parse_time current_year (rows rest : list row),
    Forall (fun r => is_header r = false) rows ->
    scrape_all_contests parse_date parse_time current_year (rows ++ rest)
    = scrape_all_contests parse_date parse_time current_year rest.
Proof.
  intros pd pt cy rows rest H. unfold scrape_all_contests.
  by rewrite detached_rows_run.
Qed.

Lemma rows_before_the_first_header_are_dropped_witness :
  scrape_all_contests Examples.parse_date Examples.parse_time 2025
    ([Examples.contest_row "Test Contest" "15:00-18:00Z" "CW"; []]
     ++ [Examples.header_row "Sa. 06.01.2025-So. 07.01.2025";
         Examples.contest_row "Test Contest" "15:00-18:00Z" "CW"])
  = scrape_all_contests Examples.parse_date Examples.parse_time 2025
      [Examples.header_row "Sa. 06.01.2025-So. 07.01.2025";
       Examples.contest_row "Test Contest" "15:00-18:00Z" "CW"].
Proof.
  apply (rows_before_the_first_header_are_dropped
           Examples.parse_date Examples.parse_time 2025
           [Examples.contest_row "Test Contest" "15:00-18:00Z" "CW"; []]).
  repeat constructor.
Defined.

(** X3.  Whatever the page and the parser, the tracked pair after any
    number of rows holds only real days of the current year, and the end
    date is set whenever the start date is: the fallback of line 106 to
    the start date is never taken. *)
Theorem tracked_dates_stay_in_the_current_year :
  forall parse_date parse_time current_year (rows : list row),
    tracker_ok current_year
      (scrape_rows parse_date parse_time current_year (None, None) rows).1.
Proof. intros. by apply scrape_rows_ok. Qed.

(** X4.  Every scraped event starts on a real day of the current year,
    and so does its end when it has one. *)
Theorem scraped_events_lie_in_the_current_year :
  forall parse_date parse_time current_year (rows : list row) e,
    e ∈ scrape_all_contests parse_date parse_time current_year rows ->
    event_in_year current_year e.
Proof.
  intros pd pt cy rows e He.
  pose proof (scrape_rows_events_in_year pd pt cy (None, None) rows I) as H.
  rewrite Forall_forall in H. by apply H.
Qed.

Lemma scraped_events_lie_in_the_current_year_witness :
  event_in_year 2025 Examples.test_contest.
Proof.
  apply (scraped_events_lie_in_the_current_year
           Examples.parse_date Examples.parse_time 2025
           [Examples.header_row "Sa. 06.01.2025-So. 07.01.2025";
            Examples.contest_row "Test Contest" "15:00-18:00Z" "CW"]).
  apply list_elem_of_In. left. reflexivity.
Defined.

(** X5.  A page yields at most one event per contest row (a row with
    cells whose first cell has a link and no [<strong>]). *)
Theorem at_most_one_event_per_contest_row :
  forall parse_date parse_time current_year (rows : list row),
    (length (scrape_all_contests parse_date parse_time current_year rows)
     <= length (List.filter is_contest rows))%nat.
Proof. intros. apply scrape_rows_length. Qed.

Lemma filter_all_true {A} (f : A -> bool) (l : list A) :
  Forall (fun x => f x = true) l -> List.filter f l = l.
Proof.
  induction 1 as [|x l Hx _ IH]; [done|]. cbn. by rewrite Hx, IH.
Qed.

Lemma in_year_not_out current_year e :
  event_in_year current_year e -> out_of_year current_year e = false.
Proof.
  intros [[Hy _] _]. unfold out_of_year.
  by rewrite (proj2 (Z.eqb_eq _ _) Hy).
Qed.

Lemma parse_in_year_same_day pd1 pd2 current_year s :
  same_day (pd1 s) (pd2 s) ->
  parse_in_year pd1 current_year s = parse_in_year pd2 current_year s.
Proof.
  unfold parse_in_year, same_day, replace_year.
  destruct (pd1 s) as [x|], (pd2 s) as [y|]; try done.
  by intros [-> ->].
Qed.

Lemma scrape_rows_same_day pd1 pd2 parse_time current_year :
  (forall s, same_day (pd1 s) (pd2 s)) ->
  forall rows st,
    scrape_rows pd1 parse_time current_year st rows
    = scrape_rows pd2 parse_time current_year st rows.
Proof.
  intros Hsame.
  assert (Hhd : forall s, header_dates pd1 current_year s
                          = header_dates pd2 current_year s).
  { intros s. unfold header_dates.
    rewrite (parse_in_year_same_day pd1 pd2) by done.
    destruct (end_fragment _) as [f|]; [|done].
    by rewrite (parse_in_year_same_day pd1 pd2). }
  induction rows as [|r rows IH]; intros st; [done|].
  rewrite !scrape_rows_cons.
  assert (Hstep : row_step pd1 parse_time current_year st r
                  = row_step pd2 parse_time current_year st r).
  { destruct r as [|td0 tds]; [done|]. cbn [row_step].
    destruct (strong td0); [by rewrite Hhd | done]. }
  by rewrite Hstep, IH.
Qed.

(** X6.  The year test of the filter never drops what the scraper of the
    same year returns: with no month and no mode asked for, filtering
    the scraped events changes nothing. *)
Theorem year_filter_keeps_every_scraped_event :
  forall parse_date parse_time current_year (rows : list row),
    filter_events current_year
      (scrape_all_contests parse_date parse_time current_year rows)
      None None
    = scrape_all_contests parse_date parse_time current_year rows.
Proof.
  intros pd pt cy rows. unfold filter_events. cbn [given].
  apply filter_all_true.
  eapply Forall_impl;
    [apply (scrape_rows_events_in_year pd pt cy (None, None) rows I)|].
  intros e He. unfold keeps. by rewrite (in_year_not_out _ _ He).
Qed.

(** X7.  A header text without a hyphen tracks one date: the end date is
    the start date, whatever the parser makes of the text. *)
Theorem header_without_hyphen_tracks_one_date :
  forall parse_date current_year s,
    Py.count "-" (Py.replace_char Py.nbsp " " s) = 0 ->
    (header_dates parse_date current_year s).2
    = (header_dates parse_date current_year s).1.
Proof.
  intros pd cy s H. unfold header_dates, end_fragment.
  by rewrite (split1_absent _ _ H).
Qed.

Lemma header_without_hyphen_tracks_one_date_witness :
  (header_dates Examples.parse_date 2025 "Sa. 06.01.2024").2
  = (header_dates Examples.parse_date 2025 "Sa. 06.01.2024").1.
Proof.
  apply (header_without_hyphen_tracks_one_date
           Examples.parse_date 2025 "Sa. 06.01.2024").
  reflexivity.
Defined.

(** X8.  The year the date parser attaches to a header never reaches the
    result: two parsers that agree on the month and the day of every
    string (and on which strings they reject) give the same events. *)
Theorem parsed_year_never_reaches_the_events :
  forall pd1 pd2 parse_time current_year (rows : list row),
    (forall s, same_day (pd1 s) (pd2 s)) ->
    scrape_all_contests pd1 parse_time current_year rows
    = scrape_all_contests pd2 parse_time current_year rows.
Proof.
  intros pd1 pd2 pt cy rows H. unfold scrape_all_contests.
  by rewrite (scrape_rows_same_day pd1 pd2 pt cy H).
Qed.

Lemma parsed_year_never_reaches_the_events_witness :
  scrape_all_contests Examples.parse_date Examples.parse_time 2025
    [Examples.header_row "Sa. 06.01.2025-So. 07.01.2025";
     Examples.contest_row "Test Contest" "15:00-18:00Z" "CW"]
  = scrape_all_contests Examples.parse_date_1999 Examples.parse_time 2025
      [Examples.header_row "Sa. 06.01.2025-So. 07.01.2025";
       Examples.contest_row "Test Contest" "15:00-18:00Z" "CW"].
Proof.
  apply (parsed_year_never_reaches_the_events
           Examples.parse_date Examples.parse_date_1999
           Examples.parse_time 2025).
  intros s. unfold Examples.parse_date_1999, same_day.
  destruct (Examples.parse_date s); [split; reflexivity | exact I].
Defined.

(** * More on de-duplication *)

Section DedupMore.

Implicit Types (seen : gset (string * datetime)) (l acc : list event).

Lemma dedup_fold_prefix l seen acc :
  exists r, (fold_left dedup_step l (seen, acc)).2 = acc ++ r.
Proof. destruct (dedup_fold_unique l seen acc) as (r & Hr & _). eauto. Qed.

(** Events with fresh and pairwise different keys are all appended. *)
Lemma dedup_fold_distinct l seen acc :
  NoDup (dedup_key <$> l) ->
  (forall e, e ∈ l -> dedup_key e ∉ seen) ->
  (fold_left dedup_step l (seen, acc)).2 = acc ++ l.
Proof.
  revert seen acc. induction l as [|e l IH]; intros seen acc Hnd Hnew.
  - cbn. by rewrite app_nil_r.
  - rewrite fmap_cons in Hnd. apply NoDup_cons in Hnd as [He Hnd].
    cbn [fold_left]. rewrite dedup_step_fresh by (apply Hnew; left).
    rewrite IH; [by rewrite <- app_assoc | done |].
    intros e' He'. apply not_elem_of_union. split.
    + intros Heq%elem_of_singleton. apply He, list_elem_of_fmap.
      exists e'. by split.
    + apply Hnew. by right.
Qed.

(** Every key met and not seen before has an event in the result. *)
Lemma dedup_fold_covers l seen acc e :
  e ∈ l -> dedup_key e ∉ seen ->
  exists e', e' ∈ (fold_left dedup_step l (seen, acc)).2
             /\ dedup_key e' = dedup_key e.
Proof.
  revert seen acc. induction l as [|e0 l IH]; intros seen acc He Hnew.
  - by apply elem_of_nil in He.
  - cbn [fold_left]. destruct (decide (dedup_key e0 ∈ seen)) as [Hin|Hout].
    + rewrite (dedup_step_seen _ _ _ Hin).
      apply elem_of_cons in He as [->|He]; [done|]. by apply IH.
    + rewrite (dedup_step_fresh _ _ _ Hout).
      destruct (decide (dedup_key e = dedup_key e0)) as [Heq|Hne].
      * exists e0. split; [|done].
        destruct (dedup_fold_prefix l ({[dedup_key e0]} ∪ seen) (acc ++ [e0]))
          as [r ->].
        rewrite !elem_of_app. left. right. by left.
      * apply elem_of_cons in He as [->|He]; [done|]. apply IH; [done|].
        apply not_elem_of_union. split; [|done].
        by intros ?%elem_of_singleton.
Qed.

End DedupMore.

(** X9.  De-duplicating twice is de-duplicating once, and a list in
    which no two events have the same title and the same start is
    returned as it is. *)
Theorem deduplicate_is_idempotent :
  forall events : list event,
    deduplicate (deduplicate events) = deduplicate events
    /\ ((forall i j a b,
           events !! i = Some a -> events !! j = Some b ->
           title a = title b -> start_dt a = start_dt b -> i = j) ->
        deduplicate events = events).
Proof.
  assert (H : forall l, NoDup (dedup_key <$> l) -> deduplicate l = l).
  { intros l Hl. unfold deduplicate.
    rewrite dedup_fold_distinct; [done | done |]. intros e _. set_solver. }
  intros events. split.
  - apply H.
    destruct (dedup_fold_unique events ∅ []) as (r & Hr & _ & _ & Hnd).
    unfold deduplicate. by rewrite Hr.
  - intros Hd. by apply H, dedup_key_distinct.
Qed.

Lemma deduplicate_is_idempotent_witness :
  deduplicate [Examples.cw_event; Examples.ssb_event]
  = [Examples.cw_event; Examples.ssb_event].
Proof.
  apply (proj2 (deduplicate_is_idempotent
                  [Examples.cw_event; Examples.ssb_event])).
  intros [|[|i]] [|[|j]] a b Ha Hb Ht Hs; try done;
    cbn in Ha, Hb; injection Ha as <-; injection Hb as <-; discriminate Ht.
Defined.

(** X10.  No contest is lost by de-duplication: every event of the input
    has an event with its title and its start in the result. *)
Theorem deduplicate_keeps_every_key :
  forall (events : list event) e,
    e ∈ events ->
    exists e', e' ∈ deduplicate events
               /\ title e' = title e /\ start_dt e' = start_dt e.
Proof.
  intros events e He.
  destruct (dedup_fold_covers events ∅ [] e He) as (e' & He' & Hk);
    [set_solver|].
  exists e'. split; [done|]. by apply dedup_key_eq.
Qed.

Lemma deduplicate_keeps_every_key_witness :
  exists e', e' ∈ deduplicate [Examples.cw_event; Examples.ssb_event;
                               Examples.cw_event_again]
             /\ title e' = title Examples.cw_event_again
             /\ start_dt e' = start_dt Examples.cw_event_again.
Proof.
  apply (deduplicate_keeps_every_key
           [Examples.cw_event; Examples.ssb_event; Examples.cw_event_again]).
  apply list_elem_of_In. right; right; left. reflexivity.
Defined.

(** * More on the filters *)

Lemma out_of_year_spec current_year e :
  out_of_year current_year e = false <-> year_ok current_year e.
Proof.
  unfold out_of_year, year_ok.
  destruct (Z.eqb_spec (year (dt_date (start_dt e))) current_year) as [Hs|Hs];
    cbn; [by split; [left|]|].
  destruct (end_dt e) as [d|]; cbn.
  - destruct (Z.eqb_spec (year (dt_date d)) current_year) as [Hd|Hd]; cbn.
    + split; [right; eauto | done].
    + split; [done|]. intros [?|(d' & [= <-] & ?)]; done.
  - split; [done|]. intros [?|(d' & [=] & _)]. done.
Qed.

Lemma out_of_months_spec months e :
  out_of_months months e = false <-> month_ok months e.
Proof.
  unfold out_of_months, month_ok, in_months.
  destruct (decide (month (dt_date (start_dt e)) ∈ months)) as [Hs|Hs].
  { rewrite bool_decide_eq_true_2 by done. cbn. by split; [left|]. }
  rewrite bool_decide_eq_false_2 by done. cbn.
  destruct (end_dt e) as [d|]; cbn.
  - destruct (Z.eqb_spec (month (dt_date d)) 0) as [H0|H0].
    + split; [done|]. intros [?|(d' & [= <-] & ? & _)]; done.
    + destruct (decide (month (dt_date d) ∈ months)) as [Hd|Hd].
      * rewrite bool_decide_eq_true_2 by done. cbn.
        split; [right; eauto | done].
      * rewrite bool_decide_eq_false_2 by done. cbn.
        split; [done|]. intros [?|(d' & [= <-] & _ & ?)]; done.
  - split; [done|]. intros [?|(d' & [=] & _)]. done.
Qed.

Lemma mode_matches_normalized modes e :
  mode_matches (map normalize modes) e = true <-> mode_ok modes e.
Proof.
  rewrite mode_matches_spec. unfold mode_ok. split.
  - intros (pat & (m & <- & Hm)%in_map_iff & H).
    exists m. by rewrite list_elem_of_In.
  - intros (m & Hm%list_elem_of_In & H).
    exists (normalize m). split; [|done]. apply in_map_iff. eauto.
Qed.

Lemma given_map {A B} (f : A -> B) (l : list A) :
  given (Some (map f l)) = given (Some l).
Proof. by destruct l. Qed.

(** The patterns the loop works with. *)
Lemma filter_events_unfold current_year events months modes :
  filter_events current_year events months modes
  = List.filter
      (keeps current_year months
         (if given modes then Some (map normalize (default [] modes))
          else None)) events.
Proof. reflexivity. Qed.

Lemma keeps_spec current_year months modes e :
  keeps current_year months
    (if given modes then Some (map normalize (default [] modes)) else None) e
  = true
  <-> year_ok current_year e
      /\ (given months = true -> month_ok (default [] months) e)
      /\ (given modes = true -> mode_ok (default [] modes) e).
Proof.
  unfold keeps. rewrite <- out_of_year_spec.
  destruct (out_of_year current_year e); [by split; [|intros [? _]]|].
  rewrite <- out_of_months_spec.
  assert (Hmode :
    (if given (if given modes then Some (map normalize (default [] modes))
               else None)
        && negb (mode_matches
                   (default [] (if given modes
                                then Some (map normalize (default [] modes))
                                else None)) e)
     then false else true) = true
    <-> (given modes = true -> mode_ok (default [] modes) e)).
  { destruct modes as [[|m ms]|]; cbn [given andb]; try by split.
    rewrite <- mode_matches_normalized.
    change (default [] (Some (m :: ms))) with (m :: ms).
    change (default [] (Some (map normalize (m :: ms))))
      with (map normalize (m :: ms)).
    destruct (mode_matches (map normalize (m :: ms)) e); cbn.
    - by split.
    - split; [done|]. intros H. by discriminate H. }
  destruct (given months); cbn [andb].
  - destruct (out_of_months _ e).
    + split; [done|]. intros (_ & H & _). by discriminate H.
    + rewrite Hmode. by split; [|intros (_ & _ & ?)].
  - rewrite Hmode. by split; [|intros (_ & _ & ?)].
Qed.

Lemma in_filter_events current_year events months modes e :
  In e (filter_events current_year events months modes)
  <-> In e events
      /\ year_ok current_year e
      /\ (given months = true -> month_ok (default [] months) e)
      /\ (given modes = true -> mode_ok (default [] modes) e).
Proof. by rewrite filter_events_unfold, filter_In, keeps_spec. Qed.

Lemma filter_filter {A} (f g : A -> bool) (l : list A) :
  List.filter f (List.filter g l) = List.filter (fun x => g x && f x) l.
Proof.
  induction l as [|x l IH]; [done|]. cbn.
  destruct (g x); cbn; [destruct (f x)|]; by rewrite IH.
Qed.

Lemma keeps_splits current_year months pats e :
  keeps current_year months pats e
  = keeps current_year months None e && keeps current_year None pats e.
Proof.
  unfold keeps. destruct (out_of_year current_year e); [done|].
  cbn [given andb].
  destruct (given months && out_of_months (default [] months) e); [done|].
  by destruct (given pats && negb (mode_matches (default [] pats) e)).
Qed.

Lemma keeps_swaps current_year months pats e :
  keeps current_year months pats e
  = keeps current_year None pats e && keeps current_year months None e.
Proof. rewrite keeps_splits. apply andb_comm. Qed.

Lemma lower_char_idempotent c :
  Py.lower_char (Py.lower_char c) = Py.lower_char c.
Proof. by destruct c as [[] [] [] [] [] [] [] []]. Qed.

Lemma lower_char_space c :
  Ascii.eqb (Py.lower_char c) " " = Ascii.eqb c " ".
Proof. by destruct c as [[] [] [] [] [] [] [] []]. Qed.

Lemma normalize_idempotent s : normalize (normalize s) = normalize s.
Proof.
  unfold normalize, Py.lower.
  induction s as [|a s IH]; [done|]. cbn.
  rewrite lower_char_space. destruct (Ascii.eqb a " ") eqn:Ha; [done|].
  cbn. rewrite lower_char_idempotent, lower_char_space, Ha. by rewrite IH.
Qed.

(** X11.  What survives [filter_events], in positive form: an event of
    the input whose start or end lies in the current year; whose start
    month or end month (an end month 0 not counting) is among the months
    when months are given; and whose normalised mode contains or is
    contained in some normalised pattern when patterns are given. *)
Theorem filter_events_membership :
  forall current_year events months modes e,
    In e (filter_events current_year events months modes)
    <-> In e events
        /\ year_ok current_year e
        /\ (given months = true -> month_ok (default [] months) e)
        /\ (given modes = true -> mode_ok (default [] modes) e).
Proof. intros. apply in_filter_events. Qed.

(** X12.  The month filter and the mode filter work independently:
    filtering by months and then by modes, or by modes and then by
    months, is filtering by both at once; filtering a second time with
    the same arguments changes nothing. *)
Theorem filters_compose :
  forall current_year events months modes,
    filter_events current_year
      (filter_events current_year events months None) None modes
    = filter_events current_year events months modes
    /\ filter_events current_year
         (filter_events current_year events None modes) months None
       = filter_events current_year events months modes
    /\ filter_events current_year
         (filter_events current_year events months modes) months modes
       = filter_events current_year events months modes.
Proof.
  intros cy events months modes. rewrite !filter_events_unfold.
  cbn [given]. rewrite !filter_filter. repeat split.
  - apply filter_ext. intros e. by rewrite <- keeps_splits.
  - apply filter_ext. intros e. by rewrite <- keeps_swaps.
  - apply filter_ext. intros e. by destruct (keeps _ _ _ e).
Qed.

(** X13.  Patterns are taken without regard to case and spaces: giving
    the normalised patterns is the same as giving the patterns. *)
Theorem mode_patterns_are_normalised :
  forall current_year events months (modes : list string),
    filter_events current_year events months (Some (map normalize modes))
    = filter_events current_year events months (Some modes).
Proof.
  intros cy events months modes. rewrite !filter_events_unfold.
  rewrite given_map. cbn [from_option]. unfold id. rewrite map_map.
  by rewrite (map_ext _ _ normalize_idempotent).
Qed.

(** * The sort and the listed events *)

Lemma lex_compare_refl a : lex_compare a a = Eq.
Proof. induction a as [|x a IH]; [done|]. cbn. by rewrite Z.compare_refl. Qed.

Lemma lex_compare_flip a b : lex_compare a b = Gt -> lex_compare b a = Lt.
Proof.
  revert b. induction a as [|x a IH]; intros [|y b]; cbn; try done.
  rewrite (Z.compare_antisym x y).
  destruct (x ?= y); cbn; [apply IH | done | done].
Qed.

Lemma lex_compare_trans a b c :
  lex_compare a b <> Gt -> lex_compare b c <> Gt -> lex_compare a c <> Gt.
Proof.
  revert b c. induction a as [|x a IH]; intros [|y b] [|z c]; cbn; try done.
  destruct (Z.compare_spec x y), (Z.compare_spec y z), (Z.compare_spec x z);
    try done; try lia.
  apply IH.
Qed.

Lemma datetime_le_refl a : datetime_le a a = true.
Proof. unfold datetime_le. by rewrite lex_compare_refl. Qed.

Lemma datetime_le_total a b : datetime_le a b = false -> datetime_le b a = true.
Proof.
  unfold datetime_le.
  destruct (lex_compare (datetime_fields a) (datetime_fields b)) eqn:E;
    try done.
  by rewrite (lex_compare_flip _ _ E).
Qed.

Lemma datetime_le_trans a b c :
  datetime_le a b = true -> datetime_le b c = true -> datetime_le a c = true.
Proof.
  unfold datetime_le. intros Hab Hbc.
  pose proof (lex_compare_trans (datetime_fields a) (datetime_fields b)
                                (datetime_fields c)) as H.
  destruct (lex_compare (datetime_fields a) (datetime_fields b));
    destruct (lex_compare (datetime_fields b) (datetime_fields c));
    destruct (lex_compare (datetime_fields a) (datetime_fields c));
    try done; exfalso; by apply H.
Qed.

Lemma insert_by_start_perm e l : insert_by_start e l ≡ₚ e :: l.
Proof.
  induction l as [|x l IH]; [done|]. cbn.
  destruct (datetime_le _ _); [done|]. rewrite IH. apply Permutation_swap.
Qed.

Lemma sort_by_start_perm l : sort_by_start l ≡ₚ l.
Proof.
  induction l as [|e l IH]; [done|]. cbn.
  by rewrite insert_by_start_perm, IH.
Qed.

Lemma insert_by_start_sorted e l :
  StronglySorted starts_before l ->
  StronglySorted starts_before (insert_by_start e l).
Proof.
  induction 1 as [|x l Hl IH Hx]; cbn.
  - repeat constructor.
  - destruct (datetime_le (start_dt e) (start_dt x)) eqn:Hle.
    + constructor; [by constructor|]. constructor; [done|].
      eapply Forall_impl; [exact Hx|]. intros y Hy.
      by apply (datetime_le_trans _ (start_dt x)).
    + constructor; [done|]. rewrite insert_by_start_perm.
      constructor; [|done]. by apply datetime_le_total.
Qed.

Lemma sort_by_start_sorted l : StronglySorted starts_before (sort_by_start l).
Proof.
  induction l as [|e l IH]; [constructor|]. by apply insert_by_start_sorted.
Qed.

(** Among events of one start, insertion puts the new one first. *)
Lemma insert_by_start_stable k e l :
  List.filter (fun x => bool_decide (start_dt x = k)) (insert_by_start e l)
  = List.filter (fun x => bool_decide (start_dt x = k)) (e :: l).
Proof.
  induction l as [|x l IH]; [done|]. cbn [insert_by_start].
  destruct (datetime_le (start_dt e) (start_dt x)) eqn:Hle; [done|].
  cbn [List.filter] in *. rewrite IH.
  destruct (decide (start_dt e = k)) as [He|He];
    [|by rewrite (bool_decide_eq_false_2 _ He)].
  rewrite (bool_decide_eq_true_2 _ He).
  rewrite bool_decide_eq_false_2; [done|].
  intros Hx. rewrite He, Hx, datetime_le_refl in Hle. done.
Qed.

Lemma sort_by_start_stable k l :
  List.filter (fun x => bool_decide (start_dt x = k)) (sort_by_start l)
  = List.filter (fun x => bool_decide (start_dt x = k)) l.
Proof.
  induction l as [|e l IH]; [done|].
  change (sort_by_start (e :: l)) with (insert_by_start e (sort_by_start l)).
  rewrite insert_by_start_stable. cbn [List.filter]. by rewrite IH.
Qed.

Lemma filter_sublist {A} (f : A -> bool) (l : list A) :
  List.filter f l `sublist_of` l.
Proof.
  induction l as [|x l IH]; [done|]. cbn.
  destruct (f x); [by apply sublist_skip | by apply sublist_cons].
Qed.

(** X14.  The sort of line 254 returns the same events in ascending
    order of start, and events that start at the same time keep the
    order they had. *)
Theorem sort_is_ascending_and_stable :
  forall l : list event,
    StronglySorted starts_before (sort_by_start l)
    /\ sort_by_start l ≡ₚ l
    /\ forall k,
         List.filter (fun e => bool_decide (start_dt e = k)) (sort_by_start l)
         = List.filter (fun e => bool_decide (start_dt e = k)) l.
Proof.
  intros l. split; [apply sort_by_start_sorted|].
  split; [apply sort_by_start_perm|]. intros k. apply sort_by_start_stable.
Qed.

(** X15.  The events a run lists and exports: they are in ascending order
    of start, no two of them share [(title, start_dt)], and they are
    exactly the de-duplicated scraped events that pass the filters. *)
Theorem main_lists_sorted_distinct_filtered_events :
  forall parse_date parse_time year_at_scrape year_at_filter rows args,
    StronglySorted starts_before
      (main_events parse_date parse_time year_at_scrape year_at_filter
                   rows args)
    /\ NoDup (dedup_key <$>
              main_events parse_date parse_time year_at_scrape year_at_filter
                          rows args)
    /\ forall e,
         e ∈ main_events parse_date parse_time year_at_scrape year_at_filter
               rows args
         <-> e ∈ deduplicate
                   (scrape_all_contests parse_date parse_time year_at_scrape
                                        rows)
             /\ year_ok year_at_filter e
             /\ (given (arg_month args) = true ->
                 month_ok (default [] (arg_month args)) e)
             /\ (given (arg_mode args) = true ->
                 mode_ok (default [] (arg_mode args)) e).
Proof.
  intros pd pt ys yf rows args. unfold main_events.
  split; [apply sort_by_start_sorted|]. split.
  - rewrite sort_by_start_perm.
    eapply sublist_NoDup; [|apply fmap_sublist, filter_sublist].
    destruct (dedup_fold_unique (scrape_all_contests pd pt ys rows) ∅ [])
      as (r & Hr & _ & _ & Hnd).
    unfold deduplicate. by rewrite Hr.
  - intros e. rewrite sort_by_start_perm, !list_elem_of_In.
    apply in_filter_events.
Qed.

(** * More on the exporter *)

Lemma length_append s t :
  String.length (s +:+ t) = (String.length s + String.length t)%nat.
Proof. induction s as [|a s IH]; [done|]. rewrite append_cons. cbn. by rewrite IH. Qed.

Lemma append_cancel_r s1 s2 t : s1 +:+ t = s2 +:+ t -> s1 = s2.
Proof.
  revert s2. induction s1 as [|a s1 IH]; intros [|b s2] H; [done| | |].
  - apply (f_equal String.length) in H.
    rewrite append_empty_l, append_cons in H. cbn in H.
    rewrite length_append in H. lia.
  - apply (f_equal String.length) in H.
    rewrite append_empty_l, append_cons in H. cbn in H.
    rewrite length_append in H. lia.
  - rewrite !append_cons in H. injection H as -> H. by rewrite (IH _ H).
Qed.

Lemma export_builds uuid4 now write_error events filename calname purge :
  (export_to_ics uuid4 now write_error events filename calname purge).1
  = build_calendar uuid4 now events calname purge.
Proof. unfold export_to_ics. by destruct write_error. Qed.

(** The properties of the entry of one event. *)
Lemma vevent_values uuid4 now purge n e :
  property "UID" (vevent uuid4 now purge n e)
  = Some (VText (uuid4 n +:+ "@darc.de"))
  /\ property "DTSTAMP" (vevent uuid4 now purge n e) = Some (VDateTime now)
  /\ property "DTSTART" (vevent uuid4 now purge n e)
     = Some (VDateTime (start_dt e))
  /\ property "DTEND" (vevent uuid4 now purge n e) = VDateTime <$> end_dt e
  /\ property "SUMMARY" (vevent uuid4 now purge n e) = Some (VText (title e)).
Proof.
  unfold vevent. destruct (end_dt e), purge; repeat split; reflexivity.
Qed.

Lemma vevent_description uuid4 now purge n e :
  property "DESCRIPTION" (vevent uuid4 now purge n e)
  = Some (VText (if Py.truthy (note e)
                 then "Mode: " +:+ mode e +:+ newline +:+ "Notiz: " +:+ note e
                 else "Mode: " +:+ mode e)).
Proof.
  unfold vevent.
  destruct (end_dt e), purge, (Py.truthy (note e)); reflexivity.
Qed.

Lemma calendar_entry uuid4 now events calname purge n :
  cal_events (build_calendar uuid4 now events calname purge) !! n
  = vevent uuid4 now purge n <$> events !! n.
Proof. unfold build_calendar. cbn [cal_events]. apply list_lookup_imap. Qed.

Lemma calendar_head uuid4 now events calname purge :
  property "PRODID" (cal_props (build_calendar uuid4 now events calname purge))
  = Some (VText "-//DARC CT Contest Calendar//darc.de//")
  /\ property "VERSION"
       (cal_props (build_calendar uuid4 now events calname purge))
     = Some (VText "2.0")
  /\ property "X-WR-CALNAME"
       (cal_props (build_calendar uuid4 now events calname purge))
     = match calname with
       | Some n => if Py.truthy n then Some (VText n) else None
       | None => None
       end.
Proof.
  unfold build_calendar. cbn [cal_props].
  destruct calname as [n|], purge; try destruct (Py.truthy n);
    repeat split; reflexivity.
Qed.

(** X16.  The calendar has one entry per event, in the order of the
    events; the n-th entry carries the n-th identifier followed by
    "@darc.de" as UID, the time of the export as DTSTAMP, the event's start
    as DTSTART, its end as DTEND exactly when it has one, its title as
    SUMMARY, and "Mode: " with the mode as DESCRIPTION, followed by a line
    "Notiz: " with the note when the note is not empty. *)
Theorem entries_carry_the_events :
  forall uuid4 now write_error events filename calname purge n,
    match
      cal_events (export_to_ics uuid4 now write_error events filename
                                calname purge).1 !! n,
      events !! n
    with
    | Some ev, Some e =>
        property "UID" ev = Some (VText (uuid4 n +:+ "@darc.de"))
        /\ property "DTSTAMP" ev = Some (VDateTime now)
        /\ property "DTSTART" ev = Some (VDateTime (start_dt e))
        /\ property "DTEND" ev = VDateTime <$> end_dt e
        /\ property "SUMMARY" ev = Some (VText (title e))
        /\ property "DESCRIPTION" ev
           = Some (VText (if Py.truthy (note e)
                          then "Mode: " +:+ mode e +:+ newline
                               +:+ "Notiz: " +:+ note e
                          else "Mode: " +:+ mode e))
    | None, None => True
    | _, _ => False
    end.
Proof.
  intros uuid4 now werr events filename calname purge n.
  rewrite export_builds, calendar_entry.
  destruct (events !! n) as [e|]; [|done]. cbn [fmap option_fmap option_map].
  destruct (vevent_values uuid4 now purge n e) as (H1 & H2 & H3 & H4 & H5).
  repeat split; try done. apply vevent_description.
Qed.

(** X17.  Purge adds its two marks and touches nothing else: every other
    property of the calendar and of every entry is the same with and
    without it. *)
Theorem purge_changes_nothing_else :
  forall uuid4 now write_error events filename calname name,
    (name <> "METHOD" ->
     property name
       (cal_props (export_to_ics uuid4 now write_error events filename
                                 calname true).1)
     = property name
         (cal_props (export_to_ics uuid4 now write_error events filename
                                   calname false).1))
    /\ (name <> "STATUS" ->
        (fun ev => property name ev)
          <$> cal_events (export_to_ics uuid4 now write_error events filename
                                        calname true).1
        = (fun ev => property name ev)
            <$> cal_events (export_to_ics uuid4 now write_error events
                                          filename calname false).1).
Proof.
  intros uuid4 now werr events filename calname name.
  rewrite !export_builds. split; intros Hne.
  - unfold build_calendar, add_if. cbn [cal_props].
    by rewrite property_add_other.
  - unfold build_calendar. cbn [cal_events].
    apply list_eq. intros n. rewrite !list_lookup_fmap, !list_lookup_imap.
    destruct (events !! n) as [e|]; [|done].
    cbn [fmap option_fmap option_map]. f_equal.
    change (vevent uuid4 now true n e)
      with (add "status" (VText "CANCELLED") (vevent uuid4 now false n e)).
    by rewrite property_add_other.
Qed.

Lemma purge_changes_nothing_else_witness :
  property "X-WR-CALNAME"
    (cal_props (export_to_ics (fun _ => "id") (combine Examples.jan6 (mktime 9 0 0 0))
                  None [Examples.cw_event] "out.ics" (Some "Contests") true).1)
  = property "X-WR-CALNAME"
      (cal_props (export_to_ics (fun _ => "id") (combine Examples.jan6 (mktime 9 0 0 0))
                    None [Examples.cw_event] "out.ics" (Some "Contests") false).1).
Proof.
  apply (proj1 (purge_changes_nothing_else
                  (fun _ => "id") (combine Examples.jan6 (mktime 9 0 0 0))
                  None [Examples.cw_event] "out.ics" (Some "Contests")
                  "X-WR-CALNAME")).
  discriminate.
Defined.

(** X18.  Every calendar has the product identifier and the version 2.0;
    it has a display name exactly when a non-empty name is given, and
    that name is its value. *)
Theorem calendar_head_properties :
  forall uuid4 now write_error events filename calname purge,
    property "PRODID"
      (cal_props (export_to_ics uuid4 now write_error events filename
                                calname purge).1)
    = Some (VText "-//DARC CT Contest Calendar//darc.de//")
    /\ property "VERSION"
         (cal_props (export_to_ics uuid4 now write_error events filename
                                   calname purge).1)
       = Some (VText "2.0")
    /\ property "X-WR-CALNAME"
         (cal_props (export_to_ics uuid4 now write_error events filename
                                   calname purge).1)
       = match calname with
         | Some n => if Py.truthy n then Some (VText n) else None
         | None => None
         end.
Proof. intros. rewrite export_builds. apply calendar_head. Qed.

(** X19.  The entries have pairwise different UIDs as long as the
    identifiers drawn for them are pairwise different. *)
Theorem entries_have_distinct_uids :
  forall uuid4 now write_error events filename calname purge,
    (forall i j, (i < length events)%nat -> (j < length events)%nat ->
                 uuid4 i = uuid4 j -> i = j) ->
    NoDup ((fun ev => property "UID" ev)
             <$> cal_events (export_to_ics uuid4 now write_error events
                                           filename calname purge).1).
Proof.
  intros uuid4 now werr events filename calname purge Hinj.
  rewrite export_builds. apply NoDup_alt. intros i j x Hi Hj.
  rewrite list_lookup_fmap, calendar_entry in Hi, Hj.
  destruct (events !! i) as [ei|] eqn:Ei; [|done].
  destruct (events !! j) as [ej|] eqn:Ej; [|done].
  cbn in Hi, Hj.
  rewrite (proj1 (vevent_values uuid4 now purge i ei)) in Hi.
  rewrite (proj1 (vevent_values uuid4 now purge j ej)) in Hj.
  rewrite <- Hj in Hi. injection Hi as Hi. apply append_cancel_r in Hi.
  apply Hinj; [by eapply lookup_lt_Some | by eapply lookup_lt_Some | done].
Qed.

Lemma entries_have_distinct_uids_witness :
  NoDup ((fun ev => property "UID" ev)
           <$> cal_events
                 (export_to_ics (fun n => String.concat "" (replicate n "x"))
                    (combine Examples.jan6 (mktime 9 0 0 0)) None
                    [Examples.cw_event; Examples.ssb_event] "out.ics"
                    (Some "Contests") false).1).
Proof.
  apply (entries_have_distinct_uids
           (fun n => String.concat "" (replicate n "x"))).
  intros [|[|i]] [|[|j]] Hi Hj H; cbn in *; try done; try lia.
Defined.

(** * More on the presenter *)

Lemma concat_length sep l :
  String.length (String.concat sep l)
  = (sum_list (String.length <$> l)
     + String.length sep * (length l - 1))%nat.
Proof.
  induction l as [|x [|y l] IH].
  - cbn. lia.
  - cbn. lia.
  - change (String.concat sep (x :: y :: l))
      with (x +:+ sep +:+ String.concat sep (y :: l)).
    rewrite !length_append, IH.
    cbn [fmap list_fmap sum_list sum_list_with length]. unfold id.
    replace (S (S (length l)) - 1)%nat with (S (S (length l) - 1)) by lia.
    rewrite Nat.mul_succ_r. lia.
Qed.

Lemma replicate_line_length n a :
  String.length (String.concat "" (replicate n (String a ""))) = n.
Proof.
  rewrite concat_length, fmap_replicate, sum_list_replicate. cbn. lia.
Qed.

Lemma ljust_length w c :
  (String.length c <= w)%nat -> String.length (Py.ljust w c) = w.
Proof.
  intros H. unfold Py.ljust.
  rewrite length_append, (replicate_line_length _ " "). lia.
Qed.

Lemma format_line_length ws cells :
  Forall2 (fun w c => (String.length c <= w)%nat) ws cells ->
  String.length (format_line ws cells)
  = (sum_list ws + 2 * (length ws - 1))%nat.
Proof.
  intros H. unfold format_line, Py.join. rewrite concat_length.
  assert (E : String.length <$> zip_with Py.ljust ws cells = ws).
  { induction H as [|w c ws cells Hwc _ IH]; [done|].
    cbn. by rewrite ljust_length, IH. }
  rewrite E, length_zip_with_l_eq by (by eapply Forall2_length). done.
Qed.

Lemma widen_length ws r : length (widen ws r) = length ws.
Proof. apply length_imap. Qed.

Lemma column_widths_length rows ws :
  length (fold_left widen rows ws) = length ws.
Proof.
  revert ws. induction rows as [|r rows IH]; intros ws; [done|].
  cbn. by rewrite IH, widen_length.
Qed.

Lemma widen_bounds ws r i w1 :
  widen ws r !! i = Some w1 ->
  exists w, ws !! i = Some w /\ (w <= w1)%nat
            /\ forall c, r !! i = Some c -> (String.length c <= w1)%nat.
Proof.
  unfold widen. rewrite list_lookup_imap.
  destruct (ws !! i) as [w|]; [|done]. cbn. intros [= <-].
  exists w. split; [done|]. destruct (r !! i) as [c|].
  - split; [lia|]. intros c' [= <-]. lia.
  - split; [lia|]. done.
Qed.

(** A column ends at least as wide as it started and as every cell met. *)
Lemma column_widths_bounds rows ws i w' :
  fold_left widen rows ws !! i = Some w' ->
  exists w, ws !! i = Some w /\ (w <= w')%nat
            /\ forall r c, r ∈ rows -> r !! i = Some c ->
                           (String.length c <= w')%nat.
Proof.
  revert ws. induction rows as [|r rows IH]; intros ws H.
  - exists w'. split; [done|]. split; [lia|].
    intros r c Hr. by apply elem_of_nil in Hr.
  - cbn [fold_left] in H. apply IH in H as (w1 & H1 & Hle & Hrows).
    apply widen_bounds in H1 as (w & Hw & Hle' & Hr).
    exists w. split; [done|]. split; [lia|].
    intros r' c [->|Hr']%elem_of_cons Hc.
    + specialize (Hr c Hc). lia.
    + by eapply Hrows.
Qed.

Lemma widths_fit_headers rows :
  Forall2 (fun w c => (String.length c <= w)%nat) (column_widths rows) headers.
Proof.
  apply Forall2_same_length_lookup_2.
  - unfold column_widths. by rewrite column_widths_length, length_map.
  - intros i w' h Hw Hh. unfold column_widths in Hw.
    apply column_widths_bounds in Hw as (w & Hw & Hle & _).
    change (map String.length headers) with (String.length <$> headers) in Hw.
    rewrite list_lookup_fmap, Hh in Hw. injection Hw as <-. lia.
Qed.

Lemma widths_fit_row rows r :
  r ∈ rows -> length r = 7%nat ->
  Forall2 (fun w c => (String.length c <= w)%nat) (column_widths rows) r.
Proof.
  intros Hr Hlen. apply Forall2_same_length_lookup_2.
  - unfold column_widths. by rewrite column_widths_length, length_map, Hlen.
  - intros i w' c Hw Hc. unfold column_widths in Hw.
    apply column_widths_bounds in Hw as (w & _ & _ & Hrows).
    by eapply Hrows.
Qed.

Lemma column_widths_seven rows : length (column_widths rows) = 7%nat.
Proof. unfold column_widths. by rewrite column_widths_length. Qed.

(** X20.  The table is aligned: the header line and the rule of dashes
    have the same length, the sum of the column widths and of the gaps,
    and so has every event line; the output has two lines and then one
    line per event, or the placeholder alone when there is no event. *)
Theorem printed_table_is_aligned :
  forall events : list event,
    length (format_and_print_events events)
    = (2 + Nat.max 1 (length events))%nat
    /\ Forall (fun line => String.length line = table_width events)
         (take 2 (format_and_print_events events))
    /\ (events <> [] ->
        Forall (fun line => String.length line = table_width events)
          (format_and_print_events events)).
Proof.
  intros events. unfold format_and_print_events, table_width.
  set (rows := map table_row events).
  assert (Hhead : String.length (format_line (column_widths rows) headers)
                  = (sum_list (column_widths rows) + 2 * 6)%nat).
  { rewrite format_line_length by apply widths_fit_headers.
    by rewrite column_widths_seven. }
  assert (Hrule : String.length
                    (String.concat ""
                       (replicate (sum_list (column_widths rows)
                                   + 2 * (length (column_widths rows) - 1))
                                  "-"))
                  = (sum_list (column_widths rows) + 2 * 6)%nat).
  { rewrite (replicate_line_length _ "-"). by rewrite column_widths_seven. }
  assert (Hrows : Forall (fun line => String.length line
                            = (sum_list (column_widths rows) + 2 * 6)%nat)
                    (map (format_line (column_widths rows)) rows)).
  { apply Forall_forall. intros line Hline.
    apply list_elem_of_fmap in Hline as (r & -> & Hr).
    rewrite format_line_length, column_widths_seven; [done|].
    apply widths_fit_row; [done|].
    apply list_elem_of_fmap in Hr as (e & -> & _). done. }
  split; [|split].
  - subst rows. destruct events as [|e events]; [reflexivity|].
    cbn [map]. rewrite length_app. cbn [length]. rewrite !length_map. lia.
  - cbn [app take]. by repeat constructor.
  - intros Hne. cbn [app]. repeat (constructor; [done|]).
    subst rows. destruct events as [|e events]; [done|]. exact Hrows.
Qed.

Lemma printed_table_is_aligned_witness :
  Forall (fun line => String.length line
                      = table_width [Examples.cw_event; Examples.ssb_event])
    (format_and_print_events [Examples.cw_event; Examples.ssb_event]).
Proof.
  apply (proj2 (proj2 (printed_table_is_aligned
                         [Examples.cw_event; Examples.ssb_event]))).
  discriminate.
Defined.

(** * The whole run *)




(** * Inheritance of the header dates, and short rows *)

Section Inheritance.

Variable parse_date : string -> option date.
Variable parse_time : string -> option time.
Variable current_year : Z.

Lemma row_step_inherits st r e :
  is_header r = false ->
  e ∈ (row_step parse_date parse_time current_year st r).2 ->
  st.1 = Some (dt_date (start_dt e))
  /\ forall d, end_dt e = Some d ->
       dt_date d = match st.2 with Some x => x | None => dt_date (start_dt e) end.
Proof.
  destruct r as [|td0 tds]; [intros _ H; by apply elem_of_nil in H|].
  cbn [is_header row_step]. destruct (strong td0); [done|]. intros _.
  destruct (link td0) as [l|], st as [[sd|] ed]; cbn [fst snd];
    try (intros H; by apply elem_of_nil in H).
  intros (_ & Hs & He)%contest_events_dates. rewrite Hs. by split.
Qed.

Lemma plain_rows_inherit st rows e :
  Forall (fun r => is_header r = false) rows ->
  e ∈ (scrape_rows parse_date parse_time current_year st rows).2 ->
  st.1 = Some (dt_date (start_dt e))
  /\ forall d, end_dt e = Some d ->
       dt_date d = match st.2 with Some x => x | None => dt_date (start_dt e) end.
Proof.
  induction 1 as [|r rows Hr _ IH]; [intros H; by apply elem_of_nil in H|].
  rewrite scrape_rows_cons. cbn [snd].
  rewrite (plain_row_step _ _ _ _ _ Hr).
  intros [H|H]%elem_of_app; [by eapply row_step_inherits | by apply IH].
Qed.

Lemma short_row_no_event sd ed l td0 :
  contest_events parse_time sd ed l [td0] = [].
Proof. reflexivity. Qed.

Lemma no_hyphen_no_end sd ed l tds e :
  Py.count "-"
    (match tds !! 1%nat with
     | Some c => Py.replace_char Py.nbsp " " (text c)
     | None => ""
     end) = 0 ->
  e ∈ contest_events parse_time sd ed l tds -> end_dt e = None.
Proof.
  intros Hc. unfold contest_events, time_strings, Py.partition.
  rewrite (split1_absent _ _ Hc). cbn [Py.strip Py.lstrip Py.rstrip].
  unfold try_times. cbn [Py.truthy].
  destruct (Py.truthy _); [destruct (parse_time _)|]; cbn;
    intros He; try (by apply elem_of_nil in He).
  by apply list_elem_of_singleton in He as ->.
Qed.

End Inheritance.

(** X22.  The contest rows between a header row and the next one inherit
    its dates: every event they yield starts on the start date the header
    set and, when it has an end, ends on the end date the header set. *)
Theorem contest_rows_inherit_the_header_dates :
  forall parse_date parse_time current_year s (rows : list row) e,
    Forall (fun r => is_header r = false) rows ->
    e ∈ (scrape_rows parse_date parse_time current_year
           (header_dates parse_date current_year s) rows).2 ->
    (header_dates parse_date current_year s).1
    = Some (dt_date (start_dt e))
    /\ forall d, end_dt e = Some d ->
         (header_dates parse_date current_year s).2 = Some (dt_date d).
Proof.
  intros pd pt cy s rows e Hrows He.
  destruct (plain_rows_inherit pd pt cy _ rows e Hrows He) as [Hs Hd].
  split; [done|]. intros d Hend. specialize (Hd d Hend).
  pose proof (header_dates_ok pd cy s) as Hok.
  destruct (header_dates pd cy s) as [[sd|] [ed|]]; cbn [fst snd] in *;
    try done. by rewrite Hd.
Qed.

Lemma contest_rows_inherit_the_header_dates_witness :
  (header_dates Examples.parse_date 2025 "Sa. 06.01.2025-So. 07.01.2025").1
  = Some (dt_date (start_dt Examples.test_contest))
  /\ forall d, end_dt Examples.test_contest = Some d ->
       (header_dates Examples.parse_date 2025 "Sa. 06.01.2025-So. 07.01.2025").2
       = Some (dt_date d).
Proof.
  apply (contest_rows_inherit_the_header_dates
           Examples.parse_date Examples.parse_time 2025
           "Sa. 06.01.2025-So. 07.01.2025"
           [[]; Examples.contest_row "Test Contest" "15:00-18:00Z" "CW"]).
  - repeat constructor.
  - apply list_elem_of_In. left. reflexivity.
Defined.

(** X23.  Short rows and short time cells: a contest row with a single
    cell yields no event, since there is no start time; and an event from
    a row whose time cell has no hyphen has no end. *)
Theorem short_rows_and_open_ended_times :
  forall parse_date parse_time current_year sd ed td0,
    (strong td0 = None ->
     (row_step parse_date parse_time current_year (Some sd, ed) [td0]).2 = [])
    /\ (forall tds e,
          Py.count "-"
            (match (td0 :: tds) !! 1%nat with
             | Some c => Py.replace_char Py.nbsp " " (text c)
             | None => ""
             end) = 0 ->
          e ∈ (row_step parse_date parse_time current_year (Some sd, ed)
                 (td0 :: tds)).2 ->
          end_dt e = None).
Proof.
  intros pd pt cy sd ed td0. split.
  - intros Hs. cbn [row_step]. rewrite Hs.
    destruct (link td0); [|done]. cbn [fst snd]. apply short_row_no_event.
  - intros tds e Hc. cbn [row_step].
    destruct (strong td0); [intros H; by apply elem_of_nil in H|].
    destruct (link td0); [|intros H; by apply elem_of_nil in H].
    cbn [fst snd]. by apply no_hyphen_no_end.
Qed.

Lemma short_rows_and_open_ended_times_witness :
  (row_step Examples.parse_date Examples.parse_time 2025
     (Some Examples.jan6, Some Examples.jan7)
     [mkcell None (Some "Test Contest") "Test Contest"]).2 = []
  /\ end_dt Examples.cw_event = None.
Proof.
  pose proof (short_rows_and_open_ended_times
                Examples.parse_date Examples.parse_time 2025
                Examples.jan6 (Some Examples.jan7)
                (mkcell None (Some "Test Contest") "Test Contest"))
    as [Hshort Hopen].
  split; [exact (Hshort eq_refl)|].
  apply (Hopen [mkcell None None "15:00"; mkcell None None "CW"]).
  - reflexivity.
  - apply list_elem_of_In. left. reflexivity.
Defined.
